(** * Sri Lanka holidays API: a shallow embedding of [main.py]

    The service answers date and listing queries from per-year JSON files
    [json/<year>.json].  The handlers of [main.py] are embedded as Rocq
    functions over

    - Python values as the handlers see them ([value]: what [json.load]
      produces, extended with [date] objects),
    - an exception monad ([result]) for the errors the handlers raise or
      let through,
    - a read-only file system giving, per year, the content of the
      year's file.

    The parts of the Python library the handlers call ([datetime.date],
    [datetime.strptime], [date.strftime] for [%A], [%W], [%B], dict
    subscription, iteration) are embedded after their library sources. *)

From Stdlib Require Import ZArith List String Ascii Bool Lia.
Import ListNotations.

Local Open Scope string_scope.
Local Open Scope list_scope.
Local Open Scope Z_scope.

#[local] Set Warnings "-register-all".

(** ** Exceptions *)

Inductive exn : Type :=
| ValueError
| TypeError
| KeyError
| JSONDecodeError
| FileNotFoundError
| HTTPException (status_code : Z) (detail : string).

Inductive result (A : Type) : Type :=
| Ok (a : A)
| Raise (e : exn).

Arguments Ok {A} a.
Arguments Raise {A} e.

Definition bind {A B : Type} (c : result A) (k : A -> result B) : result B :=
  match c with
  | Ok a => k a
  | Raise e => Raise e
  end.

Notation "x <- c ;; k" := (bind c (fun x => k))
  (at level 61, c at next level, right associativity).

(** ** The calendar of [datetime.date] *)

Module Datetime.

Record date : Type := mkdate { year : Z; month : Z; day : Z }.

Definition MINYEAR : Z := 1.
Definition MAXYEAR : Z := 9999.

Definition DAYS_IN_MONTH : list Z :=
  [-1; 31; 28; 31; 30; 31; 30; 31; 31; 30; 31; 30; 31].

Definition DAYS_BEFORE_MONTH : list Z :=
  [-1; 0; 31; 59; 90; 120; 151; 181; 212; 243; 273; 304; 334].

Definition index (l : list Z) (i : Z) : Z := nth (Z.to_nat i) l 0.

(** [year % 4 == 0 and (year % 100 != 0 or year % 400 == 0)] *)
Definition is_leap (y : Z) : bool :=
  (y mod 4 =? 0) && (negb (y mod 100 =? 0) || (y mod 400 =? 0)).

Definition days_before_year (y : Z) : Z :=
  let y := y - 1 in
  y * 365 + y / 4 - y / 100 + y / 400.

Definition days_in_month (y m : Z) : Z :=
  if (m =? 2) && is_leap y then 29 else index DAYS_IN_MONTH m.

Definition days_before_month (y m : Z) : Z :=
  index DAYS_BEFORE_MONTH m + (if (2 <? m) && is_leap y then 1 else 0).

Definition ymd2ord (y m d : Z) : Z :=
  days_before_year y + days_before_month y m + d.

(** [_check_date_fields], as the constructor [date(year, month, day)]
    runs it on integer arguments. *)
Definition check_date_fields (y m d : Z) : result (Z * Z * Z) :=
  if negb ((MINYEAR <=? y) && (y <=? MAXYEAR)) then Raise ValueError
  else if negb ((1 <=? m) && (m <=? 12)) then Raise ValueError
  else
    let dim := days_in_month y m in
    if negb ((1 <=? d) && (d <=? dim)) then Raise ValueError
    else Ok (y, m, d).

Definition new (y m d : Z) : result date :=
  f <- check_date_fields y m d ;;
  let '(y, m, d) := f in Ok (mkdate y m d).

Definition toordinal (dt : date) : Z := ymd2ord (year dt) (month dt) (day dt).

(** Monday is 0, Sunday is 6. *)
Definition weekday (dt : date) : Z := (toordinal dt + 6) mod 7.

(** [_cmp((y, m, d), (y2, m2, d2))]: tuples compare lexicographically. *)
Definition cmp (a b : date) : Z :=
  if (year a =? year b) && (month a =? month b) && (day a =? day b) then 0
  else if (year b <? year a)
       || ((year a =? year b) && ((month b <? month a)
           || ((month a =? month b) && (day b <? day a))))
  then 1 else -1.

(** [__le__]: [self._cmp(other) <= 0] *)
Definition le (a b : date) : bool := cmp a b <=? 0.

(** *** [strftime]

    [date.strftime] hands the C library a [struct tm] built by
    [_build_struct_time]: the week day as above and the day of the year
    [_days_before_month(y, m) + d], counted from 1.  The names are those
    of the C locale. *)

Definition yday (dt : date) : Z :=
  days_before_month (year dt) (month dt) + day dt.

Definition DAYNAMES : list string :=
  ["Monday"; "Tuesday"; "Wednesday"; "Thursday"; "Friday"; "Saturday";
   "Sunday"].

Definition MONTHNAMES : list string :=
  ["January"; "February"; "March"; "April"; "May"; "June"; "July";
   "August"; "September"; "October"; "November"; "December"].

(** [%A] *)
Definition strftime_A (dt : date) : string :=
  nth (Z.to_nat (weekday dt)) DAYNAMES "".

(** [%B] *)
Definition strftime_B (dt : date) : string :=
  nth (Z.to_nat (month dt - 1)) MONTHNAMES "".

Definition digit_char (n : Z) : ascii := ascii_of_nat (48 + Z.to_nat n).

Definition two_digits (n : Z) : string :=
  String (digit_char (n / 10)) (String (digit_char (n mod 10)) EmptyString).

(** [%W]: the C library computes
    [(tm_yday - (tm_wday - 1 + 7) % 7 + 7) / 7] with [tm_yday] counted
    from 0 and [tm_wday] counted from Sunday, and prints two digits. *)
Definition week_W (dt : date) : Z :=
  let tm_yday := yday dt - 1 in
  let tm_wday := (weekday dt + 1) mod 7 in
  (tm_yday - (tm_wday - 1 + 7) mod 7 + 7) / 7.

Definition strftime_W (dt : date) : string := two_digits (week_W dt).

End Datetime.

(** ** Python values

    What [json.load] builds (JSON fractional numbers, which no handler
    looks at, are left out), and [date] objects, which the handlers put
    into their answers.  A dict keeps its keys in insertion order. *)

Inductive value : Type :=
| VNone
| VBool (b : bool)
| VInt (n : Z)
| VStr (s : string)
| VDate (d : Datetime.date)
| VList (l : list value)
| VDict (kvs : list (string * value)).

Fixpoint lookup (k : string) (kvs : list (string * value)) : option value :=
  match kvs with
  | [] => None
  | (k', v) :: rest => if String.eqb k k' then Some v else lookup k rest
  end.

(** [v[k]] for a string key [k]: only a dict can be subscripted by a
    string. *)
Definition getitem (v : value) (k : string) : result value :=
  match v with
  | VDict kvs =>
      match lookup k kvs with
      | Some x => Ok x
      | None => Raise KeyError
      end
  | _ => Raise TypeError
  end.

Fixpoint chars (s : string) : list value :=
  match s with
  | EmptyString => []
  | String c rest => VStr (String c EmptyString) :: chars rest
  end.

(** [for x in v]: a list yields its items, a dict its keys, a string its
    characters; nothing else can be iterated. *)
Definition iter (v : value) : result (list value) :=
  match v with
  | VList l => Ok l
  | VDict kvs => Ok (map (fun kv => VStr (fst kv)) kvs)
  | VStr s => Ok (chars s)
  | _ => Raise TypeError
  end.

(** Truth value of an object in [if]. *)
Definition truthy (v : value) : bool :=
  match v with
  | VNone => false
  | VBool b => b
  | VInt n => negb (n =? 0)
  | VStr s => negb (String.eqb s "")
  | VDate _ => true
  | VList l => match l with [] => false | _ => true end
  | VDict kvs => match kvs with [] => false | _ => true end
  end.

(** ** [datetime.strptime(s, "%Y-%m-%d")]

    [_strptime] matches the text against the regular expression
    [(?P<Y>\d\d\d\d)-(?P<m>1[0-2]|0[1-9]|[1-9])-(?P<d>3[0-1]|[1-2]\d|0[1-9]|[1-9]| [1-9])]
    from the start of the text, refuses text left over after the match,
    converts the three groups with [int] and builds the date, which
    checks the calendar.  The alternatives of a group are tried in order,
    with backtracking into the next alternative when the rest of the
    expression fails.  Texts are sequences of ASCII characters, so [\d]
    is [0-9]. *)

Module Strptime.

Definition chr_between (lo hi c : ascii) : bool :=
  (nat_of_ascii lo <=? nat_of_ascii c)%nat
  && (nat_of_ascii c <=? nat_of_ascii hi)%nat.

Definition chr_is (x c : ascii) : bool := Ascii.eqb x c.

Definition digit : ascii -> bool := chr_between "0" "9".

(** One alternative: the characters it consumes and the text after
    them. *)
Definition alt : Type := list ascii -> option (list ascii * list ascii).

Definition one (p : ascii -> bool) : alt :=
  fun s =>
    match s with
    | a :: r => if p a then Some ([a], r) else None
    | _ => None
    end.

Definition two (p q : ascii -> bool) : alt :=
  fun s =>
    match s with
    | a :: b :: r => if p a && q b then Some ([a; b], r) else None
    | _ => None
    end.

Definition four (p : ascii -> bool) : alt :=
  fun s =>
    match s with
    | a :: b :: c :: d :: r =>
        if p a && p b && p c && p d then Some ([a; b; c; d], r) else None
    | _ => None
    end.

(** A group [(a1|a2|...)] followed by the continuation [k]. *)
Fixpoint group {A : Type} (alts : list alt)
    (k : list ascii -> list ascii -> option A) (s : list ascii) : option A :=
  match alts with
  | [] => None
  | a :: rest =>
      let here :=
        match a s with
        | Some (m, r) => k m r
        | None => None
        end in
      match here with
      | Some x => Some x
      | None => group rest k s
      end
  end.

Definition dash {A : Type} (k : list ascii -> option A) (s : list ascii)
  : option A :=
  match s with
  | c :: r => if chr_is "-" c then k r else None
  | [] => None
  end.

Definition re_Y : list alt := [four digit].

Definition re_m : list alt :=
  [two (chr_is "1") (chr_between "0" "2");
   two (chr_is "0") (chr_between "1" "9");
   one (chr_between "1" "9")].

Definition re_d : list alt :=
  [two (chr_is "3") (chr_between "0" "1");
   two (chr_between "1" "2") digit;
   two (chr_is "0") (chr_between "1" "9");
   one (chr_between "1" "9");
   two (chr_is " ") (chr_between "1" "9")].

(** The groups [Y], [m], [d] of the match and the text after it. *)
Definition format_regex_match (s : list ascii)
  : option (list ascii * list ascii * list ascii * list ascii) :=
  group re_Y (fun Y s1 =>
    dash (fun s2 =>
      group re_m (fun m s3 =>
        dash (fun s4 =>
          group re_d (fun d s5 => Some (Y, m, d, s5)) s4) s3) s2) s1) s.

(** [int] on the text of a group: decimal digits after optional
    blanks. *)
Fixpoint int_digits (acc : Z) (s : list ascii) : Z :=
  match s with
  | [] => acc
  | c :: r => int_digits (10 * acc + (Z.of_nat (nat_of_ascii c) - 48)) r
  end.

Fixpoint int (s : list ascii) : Z :=
  match s with
  | c :: r => if chr_is " " c then int r else int_digits 0 s
  | [] => 0
  end.

Definition strptime (v : value) : result Datetime.date :=
  match v with
  | VStr data_string =>
      match format_regex_match (list_ascii_of_string data_string) with
      | None => Raise ValueError
      | Some (Y, m, d, rest) =>
          match rest with
          | [] => Datetime.new (int Y) (int m) (int d)
          | _ => Raise ValueError
          end
      end
  | _ => Raise TypeError
  end.

End Strptime.

(** ** The data files

    [json/<year>.json], by year: absent, present with text that is not
    JSON, or present with a JSON document. *)

Inductive file : Type :=
| NotJson
| Json (v : value).

Definition filesystem : Type := Z -> option file.

(** [os.path.isfile(f"json/{year}.json")] *)
Definition isfile (fs : filesystem) (year : Z) : bool :=
  match fs year with
  | Some _ => true
  | None => false
  end.

(** [open(filename)] then [json.load(file)]. *)
Definition json_load (fs : filesystem) (year : Z) : result value :=
  match fs year with
  | Some (Json v) => Ok v
  | Some NotJson => Raise JSONDecodeError
  | None => Raise FileNotFoundError
  end.

(** ** HTTP *)

Definition HTTP_200_OK : Z := 200.
Definition HTTP_400_BAD_REQUEST : Z := 400.
Definition HTTP_404_NOT_FOUND : Z := 404.

(** What a handler leaves behind: the status code of the response object
    (200 unless the handler assigns it) and the returned body. *)
Record response : Type := mkresponse { status_code : Z; body : value }.

(** ** The handlers of [main.py] *)

(** [api_coverage_year] *)
Definition api_coverage_year (fs : filesystem) (year : Z) : result response :=
  if isfile fs year then
    Ok (mkresponse HTTP_200_OK
          (VDict [("year", VInt year); ("coverage", VStr "ok")]))
  else
    Ok (mkresponse HTTP_200_OK
          (VDict [("year", VInt year);
                  ("coverage", VStr "data not available")])).

(** The loop of [get_holiday_info] over the records of the year. *)
Fixpoint scan_holidays (date_to_check : Datetime.date) (holiday_data : list value)
  : result (value * Z * value) :=
  match holiday_data with
  | [] =>
      Ok (VDate date_to_check, HTTP_200_OK,
          VDict [("is_holiday", VBool false)])
  | holiday :: rest =>
      s <- getitem holiday "start" ;;
      start_date <- Strptime.strptime s ;;
      e <- getitem holiday "end" ;;
      end_date <- Strptime.strptime e ;;
      if Datetime.le start_date date_to_check
         && Datetime.le date_to_check end_date then
        uid <- getitem holiday "uid" ;;
        summary <- getitem holiday "summary" ;;
        categories <- getitem holiday "categories" ;;
        holiday_start <- getitem holiday "start" ;;
        holiday_end <- getitem holiday "end" ;;
        Ok (VDate date_to_check, HTTP_200_OK,
            VDict [("day", VStr (Datetime.strftime_A date_to_check));
                   ("week", VStr (Datetime.strftime_W date_to_check));
                   ("month", VStr (Datetime.strftime_B date_to_check));
                   ("is_holiday", VBool true);
                   ("id", uid);
                   ("holiday", summary);
                   ("categories", categories);
                   ("holiday_start", holiday_start);
                   ("holiday_end", holiday_end)])
      else scan_holidays date_to_check rest
  end.

(** [get_holiday_info]: the date (or [None]), the status code and the
    result. *)
Definition get_holiday_info (fs : filesystem) (year month day : Z)
  : result (value * Z * value) :=
  match Datetime.new year month day with
  | Raise ValueError | Raise TypeError =>
      Ok (VNone, HTTP_400_BAD_REQUEST,
          VDict [("error", VStr "invalid date")])
  | Raise e => Raise e
  | Ok date_to_check =>
      if negb (isfile fs year) then
        Ok (VDate date_to_check, HTTP_404_NOT_FOUND,
            VDict [("error", VStr "requested year not available")])
      else
        holiday_data <- json_load fs year ;;
        records <- iter holiday_data ;;
        scan_holidays date_to_check records
  end.

(** [check_holiday].  The response object is always there, so
    [if response:] holds and the status code is assigned. *)
Definition check_holiday (fs : filesystem) (year month day : Z)
  : result response :=
  info <- get_holiday_info fs year month day ;;
  let '(date_provided, status_code, result) := info in
  if negb (status_code =? HTTP_200_OK) then
    Ok (mkresponse status_code (VDict [("response", result)]))
  else
    is_holiday <- getitem result "is_holiday" ;;
    if truthy is_holiday then Ok (mkresponse status_code result)
    else
      Ok (mkresponse status_code
            (VDict [("date", date_provided); ("response", VBool false)])).

(** [holiday_info], with the same assignment of the status code. *)
Definition holiday_info (fs : filesystem) (year month day : Z)
  : result response :=
  info <- get_holiday_info fs year month day ;;
  let '(date_provided, status_code, result) := info in
  Ok (mkresponse status_code
        (VDict [("date", date_provided); ("response", result)])).

(** The comprehension of [holidays_list]. *)
Fixpoint holidays_in_month (month : Z) (holiday_data : list value)
  : result (list value) :=
  match holiday_data with
  | [] => Ok []
  | holiday :: rest =>
      s <- getitem holiday "start" ;;
      start <- Strptime.strptime s ;;
      tl <- holidays_in_month month rest ;;
      Ok (if Datetime.month start =? month then holiday :: tl else tl)
  end.

(** [holidays_list] *)
Definition holidays_list (fs : filesystem) (year month : Z)
  : result response :=
  if negb (isfile fs year) then
    Raise (HTTPException 404 "Holiday data not available for the year")
  else
    holiday_data <- json_load fs year ;;
    records <- iter holiday_data ;;
    selected <- holidays_in_month month records ;;
    if truthy (VList selected) then
      Ok (mkresponse HTTP_200_OK (VDict [("holidays", VList selected)]))
    else
      Ok (mkresponse HTTP_200_OK
            (VDict [("response", VStr "No holidays found for this month")])).

(** The comprehension of [holidays_in_year]. *)
Fixpoint year_holidays (holiday_data : list value) : result (list value) :=
  match holiday_data with
  | [] => Ok []
  | holiday :: rest =>
      uid <- getitem holiday "uid" ;;
      summary <- getitem holiday "summary" ;;
      start <- getitem holiday "start" ;;
      end_ <- getitem holiday "end" ;;
      categories <- getitem holiday "categories" ;;
      tl <- year_holidays rest ;;
      Ok (VDict [("uid", uid);
                 ("holiday", summary);
                 ("start", start);
                 ("end", end_);
                 ("categories", categories)] :: tl)
  end.

(** [holidays_in_year] *)
Definition holidays_in_year (fs : filesystem) (year : Z) : result response :=
  if negb (isfile fs year) then
    Ok (mkresponse HTTP_200_OK
          (VDict [("year", VInt year);
                  ("response", VStr "Data not available for this year.")]))
  else
    let attempt :=
      holiday_data <- json_load fs year ;;
      records <- iter holiday_data ;;
      holidays <- year_holidays records ;;
      Ok (mkresponse HTTP_200_OK
            (VDict [("year", VInt year); ("holidays", VList holidays)])) in
    match attempt with
    | Raise FileNotFoundError =>
        Ok (mkresponse HTTP_200_OK
              (VDict [("year", VInt year);
                      ("response",
                       VStr "Data not available for this year.")]))
    | other => other
    end.

(** ** Vocabulary of the specification *)

(** The Gregorian leap-year rule and the lengths of the months. *)
Definition leap_year (y : Z) : bool :=
  if y mod 400 =? 0 then true
  else if y mod 100 =? 0 then false
  else y mod 4 =? 0.

Definition month_length (y m : Z) : Z :=
  match m with
  | 2 => if leap_year y then 29 else 28
  | 4 | 6 | 9 | 11 => 30
  | _ => 31
  end.

(** A calendar date that [datetime.date] can hold. *)
Definition valid_date (y m d : Z) : Prop :=
  1 <= y <= 9999 /\ 1 <= m <= 12 /\ 1 <= d <= month_length y m.

(** What the HTTP layer lets through to the date handlers. *)
Definition in_range (y m d : Z) : Prop :=
  2000 <= y <= 3000 /\ 1 <= m <= 12 /\ 1 <= d <= 31.

(** Chronological order of dates. *)
Definition date_leq (a b : Datetime.date) : Prop :=
  Datetime.year a < Datetime.year b
  \/ (Datetime.year a = Datetime.year b
      /\ (Datetime.month a < Datetime.month b
          \/ (Datetime.month a = Datetime.month b
              /\ Datetime.day a <= Datetime.day b))).

(** A stored record read as a HolidayRecord: the five fields, and the
    dates its [start] and [end] texts stand for. *)
Record HolidayRecord : Type := mkrecord {
  rec_uid : value;
  rec_summary : value;
  rec_start : value;
  rec_end : value;
  rec_categories : value;
  start_date : Datetime.date;
  end_date : Datetime.date
}.

Definition read_record (h : value) : option HolidayRecord :=
  match getitem h "uid", getitem h "summary", getitem h "start",
        getitem h "end", getitem h "categories" with
  | Ok u, Ok s, Ok st, Ok en, Ok c =>
      match Strptime.strptime st, Strptime.strptime en with
      | Ok sd, Ok ed => Some (mkrecord u s st en c sd ed)
      | _, _ => None
      end
  | _, _, _, _, _ => None
  end.

Definition is_record (h : value) : bool :=
  match read_record h with
  | Some _ => true
  | None => false
  end.

(** The year [y] has a dataset: its file holds a sequence of records. *)
Definition dataset (fs : filesystem) (y : Z) (ds : list value) : Prop :=
  fs y = Some (Json (VList ds)) /\ forallb is_record ds = true.

(** [start <= d <= end], both ends included. *)
Definition covers (r : HolidayRecord) (d : Datetime.date) : Prop :=
  date_leq (start_date r) d /\ date_leq d (end_date r).

Definition coversb (d : Datetime.date) (h : value) : bool :=
  match read_record h with
  | Some r => Datetime.le (start_date r) d && Datetime.le d (end_date r)
  | None => false
  end.

(** The record starts in month [m]. *)
Definition starts_in (m : Z) (h : value) : bool :=
  match read_record h with
  | Some r => Datetime.month (start_date r) =? m
  | None => false
  end.

(** The detail record of the Holiday outcome. *)
Definition holiday_detail (d : Datetime.date) (r : HolidayRecord) : value :=
  VDict [("day", VStr (Datetime.strftime_A d));
         ("week", VStr (Datetime.strftime_W d));
         ("month", VStr (Datetime.strftime_B d));
         ("is_holiday", VBool true);
         ("id", rec_uid r);
         ("holiday", rec_summary r);
         ("categories", rec_categories r);
         ("holiday_start", rec_start r);
         ("holiday_end", rec_end r)].

(** The entry of the year listing for a record. *)
Definition year_entry (r : HolidayRecord) : value :=
  VDict [("uid", rec_uid r);
         ("holiday", rec_summary r);
         ("start", rec_start r);
         ("end", rec_end r);
         ("categories", rec_categories r)].

Definition entry_of (h : value) : value :=
  match read_record h with
  | Some r => year_entry r
  | None => VNone
  end.

(** [lo, lo + 1, ..., lo + n - 1] *)
Fixpoint zrange (lo : Z) (n : nat) : list Z :=
  match n with
  | O => []
  | S k => lo :: zrange (lo + 1) k
  end.

(** The days of the year of [d] from 1 January to [d], as day numbers
    (1 January of year 1 is day 1; a day number [o] is a Monday when
    [(o + 6) mod 7 = 0]), and the Mondays among them. *)
Definition days_upto (d : Datetime.date) : list Z :=
  zrange (Datetime.toordinal (Datetime.mkdate (Datetime.year d) 1 1))
         (Z.to_nat (Datetime.yday d)).

Definition is_monday (o : Z) : bool := (o + 6) mod 7 =? 0.

Definition mondays_upto (d : Datetime.date) : Z :=
  Z.of_nat (List.length (filter is_monday (days_upto d))).

(** An order-preserving selection of items of a list. *)
Inductive subseq {A : Type} : list A -> list A -> Prop :=
| subseq_nil : subseq [] []
| subseq_skip x l1 l2 : subseq l1 l2 -> subseq l1 (x :: l2)
| subseq_keep x l1 l2 : subseq l1 l2 -> subseq (x :: l1) (x :: l2).

(** *** Sample data: a file for 2025, a file for 2024 that is not JSON *)

Definition sample_record (uid summary start end_ : string)
    (categories : list string) : value :=
  VDict [("uid", VStr uid);
         ("summary", VStr summary);
         ("start", VStr start);
         ("end", VStr end_);
         ("categories", VList (map VStr categories))].

Definition sample_h1 : value :=
  sample_record "h1" "New Year" "2025-01-01" "2025-01-01" ["public"].

Definition sample_h2 : value :=
  sample_record "h2" "Sinhala and Tamil New Year" "2025-04-13" "2025-04-14"
    ["public"; "bank"].

Definition sample_h3 : value :=
  sample_record "h3" "Bak Full Moon Poya" "2025-04-12" "2025-04-13"
    ["public"].

Definition sample_h4 : value :=
  sample_record "h4" "Season" "2025-04-30" "2025-05-02" [].

Definition sample_2025 : list value :=
  [sample_h1; sample_h2; sample_h3; sample_h4].

Definition sample_fs : filesystem :=
  fun y =>
    if y =? 2025 then Some (Json (VList sample_2025))
    else if y =? 2024 then Some NotJson
    else if y =? 2023 then Some (Json (VList []))
    else None.

(** ** The handlers without data *)

(** [root] *)
Definition root : result response :=
  Ok (mkresponse HTTP_200_OK (VDict [("response", VStr "Under construction")])).

(** [api_status] *)
Definition api_status : result response :=
  Ok (mkresponse HTTP_200_OK (VDict [("status", VStr "ok")])).

(** [api_version] *)
Definition api_version : result response :=
  Ok (mkresponse HTTP_200_OK (VDict [("version", VStr "0.1.10")])).

(** ** Vocabulary for the behaviour on arbitrary stored values *)

(** What the loop of [get_holiday_info] reads of a record before it
    compares: the dates of its [start] and [end]. *)
Definition record_range (h : value)
  : result (Datetime.date * Datetime.date) :=
  s <- getitem h "start" ;;
  start_date <- Strptime.strptime s ;;
  e <- getitem h "end" ;;
  end_date <- Strptime.strptime e ;;
  Ok (start_date, end_date).

(** What the loop returns at a record whose range contains the date. *)
Definition holiday_outcome (date_to_check : Datetime.date) (holiday : value)
  : result (value * Z * value) :=
  uid <- getitem holiday "uid" ;;
  summary <- getitem holiday "summary" ;;
  categories <- getitem holiday "categories" ;;
  holiday_start <- getitem holiday "start" ;;
  holiday_end <- getitem holiday "end" ;;
  Ok (VDate date_to_check, HTTP_200_OK,
      VDict [("day", VStr (Datetime.strftime_A date_to_check));
             ("week", VStr (Datetime.strftime_W date_to_check));
             ("month", VStr (Datetime.strftime_B date_to_check));
             ("is_holiday", VBool true);
             ("id", uid);
             ("holiday", summary);
             ("categories", categories);
             ("holiday_start", holiday_start);
             ("holiday_end", holiday_end)]).

Definition in_rangeb (dt : Datetime.date)
    (rg : Datetime.date * Datetime.date) : bool :=
  Datetime.le (fst rg) dt && Datetime.le dt (snd rg).

(** The stored value has the five keys of a record. *)
Definition has_keys (h : value) : bool :=
  match getitem h "uid", getitem h "summary", getitem h "start",
        getitem h "end", getitem h "categories" with
  | Ok _, Ok _, Ok _, Ok _, Ok _ => true
  | _, _, _, _, _ => false
  end.

(** The month listing of [year], [month] is a list that holds [h]. *)
Definition listed_in_month (fs : filesystem) (year month : Z) (h : value)
  : Prop :=
  exists sel,
    holidays_list fs year month
      = Ok (mkresponse 200 (VDict [("holidays", VList sel)]))
    /\ In h sel.

(** What the comprehension of [holidays_list] reads of a record: the
    date of its [start]. *)
Definition record_start (h : value) : result Datetime.date :=
  s <- getitem h "start" ;;
  Strptime.strptime s.

(** A file system with one file, for [year]. *)
Definition one_file (year : Z) (content : file) : filesystem :=
  fun y => if y =? year then Some content else None.

(** The text [date.isoformat] writes for a date: [YYYY-MM-DD], each part
    padded with zeros. *)
Definition iso_text (dt : Datetime.date) : string :=
  let y := Datetime.year dt in
  let m := Datetime.month dt in
  let d := Datetime.day dt in
  String (Datetime.digit_char (y / 1000))
    (String (Datetime.digit_char (y / 100 mod 10))
      (String (Datetime.digit_char (y / 10 mod 10))
        (String (Datetime.digit_char (y mod 10))
          (String "-"
            (String (Datetime.digit_char (m / 10))
              (String (Datetime.digit_char (m mod 10))
                (String "-"
                  (String (Datetime.digit_char (d / 10))
                    (String (Datetime.digit_char (d mod 10))
                       EmptyString))))))))).

(** The errors that stored data can cause. *)
Definition data_error (e : exn) : Prop :=
  e = JSONDecodeError \/ e = TypeError \/ e = KeyError \/ e = ValueError.

(** * Properties *)

(** ** The calendar *)

Lemma is_leap_leap_year (y : Z) : Datetime.is_leap y = leap_year y.
Proof.
  unfold Datetime.is_leap, leap_year.
  destruct (Z.eqb_spec (y mod 400) 0), (Z.eqb_spec (y mod 100) 0),
    (Z.eqb_spec (y mod 4) 0); simpl; try reflexivity; exfalso;
    Z.div_mod_to_equations; lia.
Qed.

Lemma month_cases (m : Z) :
  1 <= m <= 12 ->
  m = 1 \/ m = 2 \/ m = 3 \/ m = 4 \/ m = 5 \/ m = 6 \/ m = 7 \/ m = 8
  \/ m = 9 \/ m = 10 \/ m = 11 \/ m = 12.
Proof. lia. Qed.

Ltac each_month m H :=
  let C := fresh "C" in
  pose proof (month_cases m H) as C;
  repeat (destruct C as [C | C]; [subst m | ]); [.. | subst m].

Lemma days_in_month_length (y m : Z) :
  1 <= m <= 12 -> Datetime.days_in_month y m = month_length y m.
Proof.
  intros H. unfold Datetime.days_in_month. rewrite is_leap_leap_year.
  each_month m H; simpl; try reflexivity; now destruct (leap_year y).
Qed.

Lemma new_valid (y m d : Z) :
  valid_date y m d -> Datetime.new y m d = Ok (Datetime.mkdate y m d).
Proof.
  intros (Hy & Hm & Hd).
  unfold Datetime.new, Datetime.check_date_fields, Datetime.MINYEAR,
    Datetime.MAXYEAR.
  rewrite days_in_month_length by exact Hm.
  replace (1 <=? y) with true by (symmetry; apply Z.leb_le; lia).
  replace (y <=? 9999) with true by (symmetry; apply Z.leb_le; lia).
  replace (1 <=? m) with true by (symmetry; apply Z.leb_le; lia).
  replace (m <=? 12) with true by (symmetry; apply Z.leb_le; lia).
  replace (1 <=? d) with true by (symmetry; apply Z.leb_le; lia).
  replace (d <=? month_length y m) with true by (symmetry; apply Z.leb_le; lia).
  reflexivity.
Qed.

Lemma new_invalid (y m d : Z) :
  ~ valid_date y m d -> Datetime.new y m d = Raise ValueError.
Proof.
  intros H.
  unfold Datetime.new, Datetime.check_date_fields, Datetime.MINYEAR,
    Datetime.MAXYEAR.
  destruct (Z.leb_spec 1 y), (Z.leb_spec y 9999); simpl; try reflexivity.
  destruct (Z.leb_spec 1 m), (Z.leb_spec m 12); simpl; try reflexivity.
  rewrite days_in_month_length by lia.
  destruct (Z.leb_spec 1 d), (Z.leb_spec d (month_length y m)); simpl;
    try reflexivity.
  exfalso. apply H. unfold valid_date. lia.
Qed.

Lemma valid_date_dec (y m d : Z) : {valid_date y m d} + {~ valid_date y m d}.
Proof.
  unfold valid_date.
  destruct (Z_le_dec 1 y), (Z_le_dec y 9999), (Z_le_dec 1 m),
    (Z_le_dec m 12), (Z_le_dec 1 d), (Z_le_dec d (month_length y m));
    try (right; lia); left; lia.
Defined.

Lemma new_inv (y m d : Z) (dt : Datetime.date) :
  Datetime.new y m d = Ok dt -> valid_date y m d /\ dt = Datetime.mkdate y m d.
Proof.
  intros H. destruct (valid_date_dec y m d) as [V | N].
  - split; [exact V | ]. rewrite (new_valid _ _ _ V) in H. congruence.
  - rewrite (new_invalid _ _ _ N) in H. discriminate.
Qed.

Lemma le_spec (a b : Datetime.date) : Datetime.le a b = true <-> date_leq a b.
Proof.
  unfold Datetime.le, Datetime.cmp, date_leq.
  destruct (Z.eqb_spec (Datetime.year a) (Datetime.year b)),
    (Z.eqb_spec (Datetime.month a) (Datetime.month b)),
    (Z.eqb_spec (Datetime.day a) (Datetime.day b)),
    (Z.ltb_spec (Datetime.year b) (Datetime.year a)),
    (Z.ltb_spec (Datetime.month b) (Datetime.month a)),
    (Z.ltb_spec (Datetime.day b) (Datetime.day a)); simpl;
    split; intros; try discriminate; try reflexivity; lia.
Qed.

(** ** Missing years and invalid dates *)

Lemma isfile_true (fs : filesystem) (y : Z) :
  isfile fs y = true <-> fs y <> None.
Proof. unfold isfile. destruct (fs y); split; congruence. Qed.

Lemma isfile_false (fs : filesystem) (y : Z) :
  isfile fs y = false <-> fs y = None.
Proof. unfold isfile. destruct (fs y); split; congruence. Qed.

Lemma scan_holidays_status (dt : Datetime.date) (l : list value)
    (dp : value) (st : Z) (res : value) :
  scan_holidays dt l = Ok (dp, st, res) -> st = HTTP_200_OK.
Proof.
  induction l as [| h rest IH]; simpl.
  - congruence.
  - destruct (getitem h "start") as [s |]; simpl; [| discriminate].
    destruct (Strptime.strptime s) as [sd |]; simpl; [| discriminate].
    destruct (getitem h "end") as [e |]; simpl; [| discriminate].
    destruct (Strptime.strptime e) as [ed |]; simpl; [| discriminate].
    destruct (Datetime.le sd dt && Datetime.le dt ed); [| exact IH].
    destruct (getitem h "uid"); simpl; [| discriminate].
    destruct (getitem h "summary"); simpl; [| discriminate].
    destruct (getitem h "categories"); simpl; [| discriminate].
    congruence.
Qed.

Lemma invalid_date_shape (fs : filesystem) (y m d : Z) :
  (~ valid_date y m d ->
   get_holiday_info fs y m d
     = Ok (VNone, HTTP_400_BAD_REQUEST,
           VDict [("error", VStr "invalid date")]))
  /\ (valid_date y m d -> fs y = None ->
      get_holiday_info fs y m d
        = Ok (VDate (Datetime.mkdate y m d), HTTP_404_NOT_FOUND,
              VDict [("error", VStr "requested year not available")])).
Proof.
  unfold get_holiday_info. split.
  - intros H. now rewrite (new_invalid _ _ _ H).
  - intros V F. rewrite (new_valid _ _ _ V).
    apply isfile_false in F. now rewrite F.
Qed.

(** C6: CheckCoverage answers [{"year": year, "coverage": "ok"}] exactly
    when a file for the year exists, whatever the file holds (an empty
    dataset, or text that is never parsed), and
    [{"year": year, "coverage": "data not available"}] exactly when it
    does not. *)
Theorem coverage_ok_iff_dataset_exists (fs : filesystem) (year : Z) :
  (api_coverage_year fs year
     = Ok (mkresponse 200
             (VDict [("year", VInt year); ("coverage", VStr "ok")]))
   <-> fs year <> None)
  /\ (api_coverage_year fs year
        = Ok (mkresponse 200
                (VDict [("year", VInt year);
                        ("coverage", VStr "data not available")]))
      <-> fs year = None)
  /\ (forall content : file,
        fs year = Some content ->
        api_coverage_year fs year
          = Ok (mkresponse 200
                  (VDict [("year", VInt year); ("coverage", VStr "ok")]))).
Proof.
  unfold api_coverage_year, isfile, HTTP_200_OK.
  destruct (fs year) as [f |]; repeat split; intros; congruence.
Qed.

(** C3: for a year without a dataset the three endpoints differ:
    CheckCoverage answers normally with the flag "data not available",
    ListHolidaysInMonth raises the 404 error, ListHolidaysInYear answers
    normally, status 200, with
    [{"year": year, "response": "Data not available for this year."}]. *)
Theorem missing_year_three_policies (fs : filesystem) (year month : Z) :
  fs year = None ->
  api_coverage_year fs year
    = Ok (mkresponse 200
            (VDict [("year", VInt year);
                    ("coverage", VStr "data not available")]))
  /\ holidays_list fs year month
       = Raise (HTTPException 404 "Holiday data not available for the year")
  /\ holidays_in_year fs year
       = Ok (mkresponse 200
               (VDict [("year", VInt year);
                       ("response",
                        VStr "Data not available for this year.")])).
Proof.
  intros H. apply isfile_false in H.
  unfold api_coverage_year, holidays_list, holidays_in_year.
  rewrite H. simpl. repeat split.
Qed.

Lemma missing_year_three_policies_witness :
  sample_fs 2050 = None
  /\ api_coverage_year sample_fs 2050
       = Ok (mkresponse 200
               (VDict [("year", VInt 2050);
                       ("coverage", VStr "data not available")]))
  /\ holidays_list sample_fs 2050 7
       = Raise (HTTPException 404 "Holiday data not available for the year")
  /\ holidays_in_year sample_fs 2050
       = Ok (mkresponse 200
               (VDict [("year", VInt 2050);
                       ("response",
                        VStr "Data not available for this year.")])).
Proof.
  split; [reflexivity | ].
  apply (missing_year_three_policies sample_fs 2050 7). reflexivity.
Defined.

(** C2: a triple that is not a calendar date gets InvalidDate, status
    400, whether or not the year has a dataset; YearUnavailable, status
    404, is the outcome exactly for a calendar date in a year without a
    dataset. *)
Theorem invalid_date_before_year_check (fs : filesystem) (y m d : Z) :
  in_range y m d ->
  (~ valid_date y m d ->
   get_holiday_info fs y m d
     = Ok (VNone, 400, VDict [("error", VStr "invalid date")]))
  /\ (forall dp res,
        get_holiday_info fs y m d = Ok (dp, 404, res) ->
        valid_date y m d /\ fs y = None)
  /\ (valid_date y m d -> fs y = None ->
      get_holiday_info fs y m d
        = Ok (VDate (Datetime.mkdate y m d), 404,
              VDict [("error", VStr "requested year not available")])).
Proof.
  intros _. unfold get_holiday_info. split; [| split].
  - intros H. now rewrite (new_invalid _ _ _ H).
  - intros dp res H.
    destruct (Datetime.new y m d) as [dt | e] eqn:E.
    + split; [now apply new_inv in E | ].
      destruct (isfile fs y) eqn:F; simpl in H.
      * destruct (json_load fs y) as [v |]; simpl in H; [| discriminate].
        destruct (iter v) as [l |]; simpl in H; [| discriminate].
        apply scan_holidays_status in H. discriminate.
      * now apply isfile_false.
    + destruct e; discriminate.
  - intros V F. rewrite (new_valid _ _ _ V).
    apply isfile_false in F. now rewrite F.
Qed.

Lemma invalid_date_before_year_check_witness :
  in_range 2050 2 30
  /\ ~ valid_date 2050 2 30
  /\ sample_fs 2050 = None
  /\ get_holiday_info sample_fs 2050 2 30
       = Ok (VNone, 400, VDict [("error", VStr "invalid date")]).
Proof.
  assert (R : in_range 2050 2 30) by (unfold in_range; lia).
  assert (N : ~ valid_date 2050 2 30) by (unfold valid_date; simpl; lia).
  split; [exact R | ]. split; [exact N | ]. split; [reflexivity | ].
  apply (invalid_date_before_year_check sample_fs 2050 2 30 R). exact N.
Defined.

(** C9: for a triple that is not a calendar date the verbose endpoint
    answers status 400 with
    [{"date": null, "response": {"error": "invalid date"}}]: the date
    field is [None], not the components that were sent. *)
Theorem holiday_info_invalid_date_null (fs : filesystem) (y m d : Z) :
  in_range y m d ->
  ~ valid_date y m d ->
  holiday_info fs y m d
    = Ok (mkresponse 400
            (VDict [("date", VNone);
                    ("response", VDict [("error", VStr "invalid date")])])).
Proof.
  intros _ H. unfold holiday_info, get_holiday_info.
  now rewrite (new_invalid _ _ _ H).
Qed.

Lemma holiday_info_invalid_date_null_witness :
  holiday_info sample_fs 2025 4 31
    = Ok (mkresponse 400
            (VDict [("date", VNone);
                    ("response", VDict [("error", VStr "invalid date")])])).
Proof.
  apply (holiday_info_invalid_date_null sample_fs 2025 4 31).
  - unfold in_range; lia.
  - unfold valid_date; simpl; lia.
Defined.

(** ** Records *)

Lemma read_record_inv (h : value) (r : HolidayRecord) :
  read_record h = Some r ->
  getitem h "uid" = Ok (rec_uid r)
  /\ getitem h "summary" = Ok (rec_summary r)
  /\ getitem h "start" = Ok (rec_start r)
  /\ getitem h "end" = Ok (rec_end r)
  /\ getitem h "categories" = Ok (rec_categories r)
  /\ Strptime.strptime (rec_start r) = Ok (start_date r)
  /\ Strptime.strptime (rec_end r) = Ok (end_date r).
Proof.
  unfold read_record.
  destruct (getitem h "uid") as [u |]; [| discriminate].
  destruct (getitem h "summary") as [s |]; [| discriminate].
  destruct (getitem h "start") as [st |]; [| discriminate].
  destruct (getitem h "end") as [en |]; [| discriminate].
  destruct (getitem h "categories") as [c |]; [| discriminate].
  destruct (Strptime.strptime st) as [sd |] eqn:Es; [| discriminate].
  destruct (Strptime.strptime en) as [ed |] eqn:Ee; [| discriminate].
  intros E. injection E as <-. simpl. repeat split; assumption.
Qed.

Lemma is_record_read (h : value) :
  is_record h = true -> exists r, read_record h = Some r.
Proof.
  unfold is_record. destruct (read_record h) as [r |]; [| discriminate].
  intros _. now exists r.
Qed.

Lemma coversb_spec (d : Datetime.date) (h : value) (r : HolidayRecord) :
  read_record h = Some r -> (coversb d h = true <-> covers r d).
Proof.
  intros E. unfold coversb, covers. rewrite E, andb_true_iff.
  now rewrite !le_spec.
Qed.

Lemma scan_holidays_cons (dt : Datetime.date) (h : value) (rest : list value)
    (r : HolidayRecord) :
  read_record h = Some r ->
  scan_holidays dt (h :: rest)
    = if coversb dt h then Ok (VDate dt, HTTP_200_OK, holiday_detail dt r)
      else scan_holidays dt rest.
Proof.
  intros E. unfold coversb. rewrite E.
  destruct (read_record_inv h r E) as (Hu & Hs & Hst & Hen & Hc & Ps & Pe).
  cbn [scan_holidays]. rewrite Hst. cbn [bind]. rewrite Ps. cbn [bind].
  rewrite Hen. cbn [bind]. rewrite Pe. cbn [bind].
  destruct (Datetime.le (start_date r) dt && Datetime.le dt (end_date r));
    [| reflexivity].
  rewrite Hu, Hs, Hc. reflexivity.
Qed.

Lemma scan_holidays_first (dt : Datetime.date) (pre : list value) (h : value)
    (post : list value) (r : HolidayRecord) :
  forallb is_record pre = true ->
  read_record h = Some r ->
  coversb dt h = true ->
  (forall h', In h' pre -> coversb dt h' = false) ->
  scan_holidays dt (pre ++ h :: post)
    = Ok (VDate dt, HTTP_200_OK, holiday_detail dt r).
Proof.
  intros W E C. induction pre as [| p pre IH]; intros N.
  - simpl app. rewrite (scan_holidays_cons _ _ _ _ E), C. reflexivity.
  - simpl in W. apply andb_true_iff in W as [Wp W].
    destruct (is_record_read _ Wp) as [rp Ep].
    simpl app. rewrite (scan_holidays_cons _ _ _ _ Ep).
    rewrite (N p (or_introl eq_refl)).
    apply IH; [exact W | ]. intros h' I. apply N. now right.
Qed.

Lemma scan_holidays_none (dt : Datetime.date) (ds : list value) :
  forallb is_record ds = true ->
  (forall h, In h ds -> coversb dt h = false) ->
  scan_holidays dt ds
    = Ok (VDate dt, HTTP_200_OK, VDict [("is_holiday", VBool false)]).
Proof.
  induction ds as [| p ds IH]; intros W N.
  - reflexivity.
  - simpl in W. apply andb_true_iff in W as [Wp W].
    destruct (is_record_read _ Wp) as [rp Ep].
    rewrite (scan_holidays_cons _ _ _ _ Ep).
    rewrite (N p (or_introl eq_refl)).
    apply IH; [exact W | ]. intros h' I. apply N. now right.
Qed.

Lemma get_holiday_info_dataset (fs : filesystem) (y m d : Z)
    (ds : list value) :
  valid_date y m d ->
  dataset fs y ds ->
  get_holiday_info fs y m d = scan_holidays (Datetime.mkdate y m d) ds.
Proof.
  intros V [F _]. unfold get_holiday_info, isfile, json_load.
  rewrite (new_valid _ _ _ V), F. reflexivity.
Qed.

Lemma not_covers_coversb (dt : Datetime.date) (l : list value) :
  forallb is_record l = true ->
  (forall h r, In h l -> read_record h = Some r -> ~ covers r dt) ->
  forall h, In h l -> coversb dt h = false.
Proof.
  intros W N h I.
  destruct (coversb dt h) eqn:C; [exfalso | reflexivity].
  rewrite forallb_forall in W.
  destruct (is_record_read _ (W h I)) as [r E].
  apply (N h r I E). now apply (coversb_spec dt h r E).
Qed.

Lemma forallb_app_l {A : Type} (f : A -> bool) (l1 l2 : list A) :
  forallb f (l1 ++ l2) = true -> forallb f l1 = true.
Proof. rewrite forallb_app, andb_true_iff. tauto. Qed.

(** The Holiday outcome at the first record that covers the date. *)
Lemma get_holiday_info_first (fs : filesystem) (y m d : Z)
    (pre : list value) (h : value) (post : list value) (r : HolidayRecord) :
  valid_date y m d ->
  dataset fs y (pre ++ h :: post) ->
  read_record h = Some r ->
  covers r (Datetime.mkdate y m d) ->
  (forall h' r', In h' pre -> read_record h' = Some r' ->
                 ~ covers r' (Datetime.mkdate y m d)) ->
  get_holiday_info fs y m d
    = Ok (VDate (Datetime.mkdate y m d), HTTP_200_OK,
          holiday_detail (Datetime.mkdate y m d) r).
Proof.
  intros V D E C N.
  rewrite (get_holiday_info_dataset _ _ _ _ _ V D).
  destruct D as [_ W]. apply forallb_app_l in W.
  apply scan_holidays_first; try assumption.
  - now apply (coversb_spec _ h r E).
  - now apply not_covers_coversb.
Qed.

(** The NotHoliday outcome when no record covers the date. *)
Lemma get_holiday_info_none (fs : filesystem) (y m d : Z) (ds : list value) :
  valid_date y m d ->
  dataset fs y ds ->
  (forall h r, In h ds -> read_record h = Some r ->
               ~ covers r (Datetime.mkdate y m d)) ->
  get_holiday_info fs y m d
    = Ok (VDate (Datetime.mkdate y m d), HTTP_200_OK,
          VDict [("is_holiday", VBool false)]).
Proof.
  intros V D N.
  rewrite (get_holiday_info_dataset _ _ _ _ _ V D).
  destruct D as [_ W].
  apply scan_holidays_none; [exact W | ]. now apply not_covers_coversb.
Qed.

(** ** Resolving a date *)

(** C1: for a calendar date in a year with a dataset, the outcome is
    Holiday, status 200, for the first record in dataset order whose
    range contains the date, both ends included, and the returned id is
    that record's uid, also when later records contain the date too;
    when no record contains the date the outcome is NotHoliday, status
    200. *)
Theorem resolve_date_first_match (fs : filesystem) (y m d : Z)
    (ds : list value) :
  valid_date y m d ->
  dataset fs y ds ->
  (forall pre h post r,
     ds = pre ++ h :: post ->
     read_record h = Some r ->
     covers r (Datetime.mkdate y m d) ->
     (forall h' r', In h' pre -> read_record h' = Some r' ->
                    ~ covers r' (Datetime.mkdate y m d)) ->
     exists detail,
       get_holiday_info fs y m d
         = Ok (VDate (Datetime.mkdate y m d), 200, detail)
       /\ getitem detail "is_holiday" = Ok (VBool true)
       /\ getitem detail "id" = getitem h "uid")
  /\ ((forall h r, In h ds -> read_record h = Some r ->
                   ~ covers r (Datetime.mkdate y m d)) ->
      get_holiday_info fs y m d
        = Ok (VDate (Datetime.mkdate y m d), 200,
              VDict [("is_holiday", VBool false)])).
Proof.
  intros V D. split.
  - intros pre h post r -> E C N.
    exists (holiday_detail (Datetime.mkdate y m d) r).
    rewrite (get_holiday_info_first _ _ _ _ _ _ _ _ V D E C N).
    destruct (read_record_inv h r E) as (Hu & _).
    rewrite Hu. repeat split.
  - intros N. now apply get_holiday_info_none with (ds := ds).
Qed.

Lemma resolve_date_first_match_witness :
  valid_date 2025 4 13
  /\ dataset sample_fs 2025 sample_2025
  /\ (exists detail,
        get_holiday_info sample_fs 2025 4 13
          = Ok (VDate (Datetime.mkdate 2025 4 13), 200, detail)
        /\ getitem detail "is_holiday" = Ok (VBool true)
        /\ getitem detail "id" = getitem sample_h2 "uid").
Proof.
  assert (V : valid_date 2025 4 13) by (unfold valid_date; simpl; lia).
  assert (D : dataset sample_fs 2025 sample_2025) by (split; reflexivity).
  split; [exact V | ]. split; [exact D | ].
  destruct (resolve_date_first_match sample_fs 2025 4 13 sample_2025 V D)
    as [H _].
  apply (H [sample_h1] sample_h2 [sample_h3; sample_h4]
           (mkrecord (VStr "h2") (VStr "Sinhala and Tamil New Year")
              (VStr "2025-04-13") (VStr "2025-04-14")
              (VList [VStr "public"; VStr "bank"])
              (Datetime.mkdate 2025 4 13) (Datetime.mkdate 2025 4 14))).
  - reflexivity.
  - reflexivity.
  - unfold covers, date_leq; simpl; lia.
  - intros h' r' [<- | []] E. vm_compute in E. injection E as <-.
    unfold covers, date_leq; simpl; lia.
Defined.

(** C7: the strict endpoint answers a calendar date of a covered year
    that no record contains with status 200 and
    [{"date": <date>, "response": false}], a date that a record contains
    with the detail record itself (day, week, month, is_holiday, id,
    holiday, categories, holiday_start, holiday_end, unwrapped), and an
    error outcome with the error detail under "response" and the
    outcome's status code. *)
Theorem check_holiday_modes (fs : filesystem) (y m d : Z) :
  in_range y m d ->
  (forall ds,
     valid_date y m d -> dataset fs y ds ->
     (forall h r, In h ds -> read_record h = Some r ->
                  ~ covers r (Datetime.mkdate y m d)) ->
     check_holiday fs y m d
       = Ok (mkresponse 200
               (VDict [("date", VDate (Datetime.mkdate y m d));
                       ("response", VBool false)])))
  /\ (forall pre h post r,
        valid_date y m d -> dataset fs y (pre ++ h :: post) ->
        read_record h = Some r ->
        covers r (Datetime.mkdate y m d) ->
        (forall h' r', In h' pre -> read_record h' = Some r' ->
                       ~ covers r' (Datetime.mkdate y m d)) ->
        check_holiday fs y m d
          = Ok (mkresponse 200
                  (VDict [("day", VStr (Datetime.strftime_A
                                          (Datetime.mkdate y m d)));
                          ("week", VStr (Datetime.strftime_W
                                           (Datetime.mkdate y m d)));
                          ("month", VStr (Datetime.strftime_B
                                            (Datetime.mkdate y m d)));
                          ("is_holiday", VBool true);
                          ("id", rec_uid r);
                          ("holiday", rec_summary r);
                          ("categories", rec_categories r);
                          ("holiday_start", rec_start r);
                          ("holiday_end", rec_end r)])))
  /\ (~ valid_date y m d ->
      check_holiday fs y m d
        = Ok (mkresponse 400
                (VDict [("response",
                         VDict [("error", VStr "invalid date")])])))
  /\ (valid_date y m d -> fs y = None ->
      check_holiday fs y m d
        = Ok (mkresponse 404
                (VDict [("response",
                         VDict [("error",
                                 VStr "requested year not available")])]))).
Proof.
  intros R. unfold check_holiday. split; [| split; [| split]].
  - intros ds V D N.
    now rewrite (get_holiday_info_none _ _ _ _ _ V D N).
  - intros pre h post r V D E C N.
    now rewrite (get_holiday_info_first _ _ _ _ _ _ _ _ V D E C N).
  - intros N.
    destruct (invalid_date_shape fs y m d) as [E _]. now rewrite (E N).
  - intros V F.
    destruct (invalid_date_shape fs y m d) as [_ E].
    now rewrite (E V F).
Qed.

Lemma check_holiday_modes_witness :
  in_range 2025 1 2
  /\ valid_date 2025 1 2
  /\ dataset sample_fs 2025 sample_2025
  /\ check_holiday sample_fs 2025 1 2
       = Ok (mkresponse 200
               (VDict [("date", VDate (Datetime.mkdate 2025 1 2));
                       ("response", VBool false)])).
Proof.
  assert (R : in_range 2025 1 2) by (unfold in_range; lia).
  assert (V : valid_date 2025 1 2) by (unfold valid_date; simpl; lia).
  assert (D : dataset sample_fs 2025 sample_2025) by (split; reflexivity).
  split; [exact R | ]. split; [exact V | ]. split; [exact D | ].
  destruct (check_holiday_modes sample_fs 2025 1 2 R) as [H _].
  apply (H sample_2025 V D).
  intros h r [<- | [<- | [<- | [<- | []]]]] E; vm_compute in E;
    injection E as <-; unfold covers, date_leq; simpl; lia.
Defined.

(** ** Week numbers *)

Lemma zrange_mondays (n : nat) (lo : Z) :
  Z.of_nat (List.length (filter is_monday (zrange lo n)))
    = (Z.of_nat n + 6 - (lo + Z.of_nat n + 5) mod 7) / 7.
Proof.
  revert lo. induction n as [| n IH]; intros lo.
  - cbn [zrange filter List.length]. change (Z.of_nat 0) with 0.
    Z.div_mod_to_equations. lia.
  - cbn [zrange filter]. specialize (IH (lo + 1)).
    replace (lo + 1 + Z.of_nat n + 5) with (lo + Z.of_nat (S n) + 5) in IH
      by lia.
    unfold is_monday at 1.
    destruct (Z.eqb_spec ((lo + 6) mod 7) 0) as [M | M].
    + cbn [List.length]. rewrite Nat2Z.inj_succ, IH.
      rewrite !Nat2Z.inj_succ in *.
      Z.div_mod_to_equations. lia.
    + rewrite IH. rewrite !Nat2Z.inj_succ in *.
      Z.div_mod_to_equations. lia.
Qed.

Ltac eval_index :=
  repeat match goal with
  | |- context [Datetime.index ?l ?i] =>
      let v := eval vm_compute in (Datetime.index l i) in
      change (Datetime.index l i) with v
  end.

Lemma days_before_month_jan (y : Z) : Datetime.days_before_month y 1 = 0.
Proof. reflexivity. Qed.

Lemma days_before_month_nonneg (y m : Z) :
  1 <= m <= 12 -> 0 <= Datetime.days_before_month y m.
Proof.
  intros H. unfold Datetime.days_before_month.
  each_month m H; eval_index; destruct (Datetime.is_leap y); simpl; lia.
Qed.

(** The week number that [%W] prints is the number of Mondays of the
    year up to the date. *)
Lemma week_W_mondays (y m d : Z) :
  valid_date y m d ->
  Datetime.week_W (Datetime.mkdate y m d)
    = mondays_upto (Datetime.mkdate y m d).
Proof.
  intros (Hy & Hm & Hd).
  unfold mondays_upto, days_upto. rewrite zrange_mondays.
  pose proof (days_before_month_nonneg y m Hm) as Hb.
  unfold Datetime.week_W, Datetime.weekday, Datetime.toordinal,
    Datetime.ymd2ord, Datetime.yday. cbn [Datetime.year Datetime.month
    Datetime.day]. rewrite days_before_month_jan.
  rewrite Z2Nat.id by lia.
  set (b := Datetime.days_before_month y m) in *.
  set (o := Datetime.days_before_year y).
  Z.div_mod_to_equations. lia.
Qed.

Lemma week_W_bounds (y m d : Z) :
  valid_date y m d -> 0 <= Datetime.week_W (Datetime.mkdate y m d) <= 53.
Proof.
  intros (Hy & Hm & Hd).
  assert (Hb : 0 <= Datetime.days_before_month y m <= 335).
  { unfold Datetime.days_before_month.
    each_month m Hm; eval_index; destruct (Datetime.is_leap y); simpl; lia. }
  assert (Hl : month_length y m <= 31).
  { unfold month_length. each_month m Hm; try lia.
    destruct (leap_year y); lia. }
  unfold Datetime.week_W, Datetime.weekday, Datetime.yday.
  cbn [Datetime.year Datetime.month Datetime.day].
  set (b := Datetime.days_before_month y m) in *.
  set (w := Datetime.toordinal _).
  Z.div_mod_to_equations. lia.
Qed.

Lemma filter_none {A : Type} (p : A -> bool) (l : list A) :
  (forall x, In x l -> p x = false) -> filter p l = [].
Proof.
  induction l as [| a l IH]; intros H; [reflexivity | ].
  simpl. rewrite (H a (or_introl eq_refl)). apply IH.
  intros x I. apply H. now right.
Qed.

Lemma zrange_In (n : nat) (lo x : Z) :
  In x (zrange lo n) <-> lo <= x < lo + Z.of_nat n.
Proof.
  revert lo. induction n as [| n IH]; intros lo.
  - simpl. lia.
  - cbn [zrange In]. rewrite IH. lia.
Qed.

Lemma yday_order (y m d m' d' : Z) :
  valid_date y m d -> valid_date y m' d' ->
  (date_leq (Datetime.mkdate y m' d') (Datetime.mkdate y m d)
   <-> Datetime.yday (Datetime.mkdate y m' d')
       <= Datetime.yday (Datetime.mkdate y m d)).
Proof.
  intros (_ & Hm & Hd) (_ & Hm' & Hd').
  unfold date_leq, Datetime.yday, Datetime.days_before_month.
  cbn [Datetime.year Datetime.month Datetime.day].
  rewrite is_leap_leap_year.
  unfold month_length in Hd, Hd'.
  each_month m Hm; each_month m' Hm'; eval_index;
    destruct (leap_year y); cbn -[Z.add Z.le Z.lt] in *; lia.
Qed.

Ltac pick_day L k dd :=
  exists k, dd; unfold month_length; rewrite ?L; eval_index;
  cbn -[Z.add Z.sub Z.le Z.lt]; lia.

Lemma yday_date (y : Z) (leap : bool) (n : Z) :
  leap_year y = leap ->
  1 <= n <= (if leap then 366 else 365) ->
  exists m' d',
    1 <= m' <= 12 /\ 1 <= d' <= month_length y m'
    /\ Datetime.yday (Datetime.mkdate y m' d') = n.
Proof.
  intros L Hn.
  unfold Datetime.yday, Datetime.days_before_month.
  cbn [Datetime.year Datetime.month Datetime.day].
  rewrite is_leap_leap_year, L.
  destruct leap.
  - assert (C : n <= 31 \/ 31 < n <= 60 \/ 60 < n <= 91 \/ 91 < n <= 121
                \/ 121 < n <= 152 \/ 152 < n <= 182 \/ 182 < n <= 213
                \/ 213 < n <= 244 \/ 244 < n <= 274 \/ 274 < n <= 305
                \/ 305 < n <= 335 \/ 335 < n) by lia.
    destruct C as [C | [C | [C | [C | [C | [C | [C | [C | [C | [C | [C | C]]]]]]]]]]].
    + pick_day L 1 n.
    + pick_day L 2 (n - 31).
    + pick_day L 3 (n - 60).
    + pick_day L 4 (n - 91).
    + pick_day L 5 (n - 121).
    + pick_day L 6 (n - 152).
    + pick_day L 7 (n - 182).
    + pick_day L 8 (n - 213).
    + pick_day L 9 (n - 244).
    + pick_day L 10 (n - 274).
    + pick_day L 11 (n - 305).
    + pick_day L 12 (n - 335).
  - assert (C : n <= 31 \/ 31 < n <= 59 \/ 59 < n <= 90 \/ 90 < n <= 120
                \/ 120 < n <= 151 \/ 151 < n <= 181 \/ 181 < n <= 212
                \/ 212 < n <= 243 \/ 243 < n <= 273 \/ 273 < n <= 304
                \/ 304 < n <= 334 \/ 334 < n) by lia.
    destruct C as [C | [C | [C | [C | [C | [C | [C | [C | [C | [C | [C | C]]]]]]]]]]].
    + pick_day L 1 n.
    + pick_day L 2 (n - 31).
    + pick_day L 3 (n - 59).
    + pick_day L 4 (n - 90).
    + pick_day L 5 (n - 120).
    + pick_day L 6 (n - 151).
    + pick_day L 7 (n - 181).
    + pick_day L 8 (n - 212).
    + pick_day L 9 (n - 243).
    + pick_day L 10 (n - 273).
    + pick_day L 11 (n - 304).
    + pick_day L 12 (n - 334).
Qed.

Lemma yday_bounds (y m d : Z) :
  valid_date y m d ->
  1 <= Datetime.yday (Datetime.mkdate y m d)
    <= (if leap_year y then 366 else 365).
Proof.
  intros (_ & Hm & Hd).
  unfold Datetime.yday, Datetime.days_before_month.
  cbn [Datetime.year Datetime.month Datetime.day].
  rewrite is_leap_leap_year. unfold month_length in Hd.
  each_month m Hm; eval_index;
    destruct (leap_year y); cbn -[Z.add Z.le Z.lt] in *; lia.
Qed.

Lemma toordinal_yday (dt : Datetime.date) :
  Datetime.toordinal dt
    = Datetime.toordinal (Datetime.mkdate (Datetime.year dt) 1 1)
      + Datetime.yday dt - 1.
Proof.
  unfold Datetime.toordinal, Datetime.ymd2ord, Datetime.yday.
  cbn [Datetime.year Datetime.month Datetime.day].
  rewrite days_before_month_jan. lia.
Qed.

Lemma is_monday_weekday (dt : Datetime.date) :
  is_monday (Datetime.toordinal dt) = (Datetime.weekday dt =? 0).
Proof. reflexivity. Qed.

(** The day numbers listed by [days_upto] are those of the dates of the
    year up to the date. *)
Lemma days_upto_dates (y m d o : Z) :
  valid_date y m d ->
  (In o (days_upto (Datetime.mkdate y m d))
   <-> exists m' d',
         valid_date y m' d'
         /\ date_leq (Datetime.mkdate y m' d') (Datetime.mkdate y m d)
         /\ o = Datetime.toordinal (Datetime.mkdate y m' d')).
Proof.
  intros V. pose proof (yday_bounds y m d V) as B.
  unfold days_upto. rewrite zrange_In, Z2Nat.id by lia.
  cbn [Datetime.year]. split.
  - intros H.
    set (o1 := Datetime.toordinal (Datetime.mkdate y 1 1)) in *.
    destruct (yday_date y (leap_year y) (o - o1 + 1) eq_refl)
      as (m' & d' & Hm' & Hd' & Y); [lia | ].
    assert (V' : valid_date y m' d') by (destruct V; now repeat split).
    exists m', d'. split; [exact V' | ]. split.
    + apply (yday_order y m d m' d' V V'). lia.
    + rewrite toordinal_yday. cbn [Datetime.year]. fold o1. lia.
  - intros (m' & d' & V' & L & ->).
    apply (yday_order y m d m' d' V V') in L.
    pose proof (yday_bounds y m' d' V').
    rewrite (toordinal_yday (Datetime.mkdate y m' d')).
    cbn [Datetime.year]. lia.
Qed.

(** C8: the Holiday outcome carries the name of the week day, the name
    of the month and the week number of [%W], that is the number of
    Mondays of the year up to the date in two digits, so that weeks start
    on Monday and a date with no Monday of its year on or before it, a
    Sunday included, is in week "00"; with them the matched record's uid,
    summary, categories, start and end. *)
Theorem holiday_outcome_fields (fs : filesystem) (y m d : Z)
    (pre : list value) (h : value) (post : list value) (r : HolidayRecord) :
  valid_date y m d ->
  dataset fs y (pre ++ h :: post) ->
  read_record h = Some r ->
  covers r (Datetime.mkdate y m d) ->
  (forall h' r', In h' pre -> read_record h' = Some r' ->
                 ~ covers r' (Datetime.mkdate y m d)) ->
  exists detail,
    get_holiday_info fs y m d
      = Ok (VDate (Datetime.mkdate y m d), 200, detail)
    /\ getitem detail "day"
         = Ok (VStr (nth (Z.to_nat (Datetime.weekday (Datetime.mkdate y m d)))
                       Datetime.DAYNAMES ""))
    /\ getitem detail "month"
         = Ok (VStr (nth (Z.to_nat (m - 1)) Datetime.MONTHNAMES ""))
    /\ getitem detail "week"
         = Ok (VStr (Datetime.two_digits
                       (mondays_upto (Datetime.mkdate y m d))))
    /\ ((forall m' d',
           valid_date y m' d' ->
           date_leq (Datetime.mkdate y m' d') (Datetime.mkdate y m d) ->
           Datetime.weekday (Datetime.mkdate y m' d') <> 0) ->
        getitem detail "week" = Ok (VStr "00"))
    /\ getitem detail "id" = getitem h "uid"
    /\ getitem detail "holiday" = getitem h "summary"
    /\ getitem detail "categories" = getitem h "categories"
    /\ getitem detail "holiday_start" = getitem h "start"
    /\ getitem detail "holiday_end" = getitem h "end".
Proof.
  intros V D E C N.
  exists (holiday_detail (Datetime.mkdate y m d) r).
  rewrite (get_holiday_info_first _ _ _ _ _ _ _ _ V D E C N).
  destruct (read_record_inv h r E) as (Hu & Hs & Hst & Hen & Hc & _).
  rewrite Hu, Hs, Hst, Hen, Hc.
  assert (W : Datetime.strftime_W (Datetime.mkdate y m d)
              = Datetime.two_digits (mondays_upto (Datetime.mkdate y m d))).
  { unfold Datetime.strftime_W. now rewrite (week_W_mondays _ _ _ V). }
  split; [reflexivity | ]. split; [reflexivity | ]. split; [reflexivity | ].
  split; [cbn; now rewrite W | ].
  split; [| repeat split].
  intros M. cbn. rewrite W. unfold mondays_upto.
  rewrite filter_none; [reflexivity | ].
  intros o I. apply (days_upto_dates y m d o V) in I
    as (m' & d' & V' & L & ->).
  rewrite is_monday_weekday. apply Z.eqb_neq. now apply M.
Qed.

Lemma holiday_outcome_fields_witness :
  valid_date 2025 1 1
  /\ dataset sample_fs 2025 ([] ++ sample_h1 :: [sample_h2; sample_h3; sample_h4])
  /\ exists detail,
       get_holiday_info sample_fs 2025 1 1
         = Ok (VDate (Datetime.mkdate 2025 1 1), 200, detail)
       /\ getitem detail "day"
            = Ok (VStr (nth (Z.to_nat (Datetime.weekday
                                         (Datetime.mkdate 2025 1 1)))
                          Datetime.DAYNAMES ""))
       /\ getitem detail "month"
            = Ok (VStr (nth (Z.to_nat (1 - 1)) Datetime.MONTHNAMES ""))
       /\ getitem detail "week"
            = Ok (VStr (Datetime.two_digits
                          (mondays_upto (Datetime.mkdate 2025 1 1))))
       /\ ((forall m' d',
              valid_date 2025 m' d' ->
              date_leq (Datetime.mkdate 2025 m' d')
                       (Datetime.mkdate 2025 1 1) ->
              Datetime.weekday (Datetime.mkdate 2025 m' d') <> 0) ->
           getitem detail "week" = Ok (VStr "00"))
       /\ getitem detail "id" = getitem sample_h1 "uid"
       /\ getitem detail "holiday" = getitem sample_h1 "summary"
       /\ getitem detail "categories" = getitem sample_h1 "categories"
       /\ getitem detail "holiday_start" = getitem sample_h1 "start"
       /\ getitem detail "holiday_end" = getitem sample_h1 "end".
Proof.
  assert (V : valid_date 2025 1 1) by (unfold valid_date; simpl; lia).
  assert (D : dataset sample_fs 2025
                ([] ++ sample_h1 :: [sample_h2; sample_h3; sample_h4]))
    by (split; reflexivity).
  split; [exact V | ]. split; [exact D | ].
  apply (holiday_outcome_fields sample_fs 2025 1 1 [] sample_h1
           [sample_h2; sample_h3; sample_h4]
           (mkrecord (VStr "h1") (VStr "New Year")
              (VStr "2025-01-01") (VStr "2025-01-01")
              (VList [VStr "public"])
              (Datetime.mkdate 2025 1 1) (Datetime.mkdate 2025 1 1)) V D).
  - reflexivity.
  - unfold covers, date_leq; simpl; lia.
  - intros h' r' [].
Defined.

(** ** Listings *)

Lemma year_holidays_map (ds : list value) :
  forallb is_record ds = true -> year_holidays ds = Ok (map entry_of ds).
Proof.
  induction ds as [| h ds IH]; intros W; [reflexivity | ].
  simpl in W. apply andb_true_iff in W as [Wh W].
  destruct (is_record_read _ Wh) as [r E].
  destruct (read_record_inv h r E) as (Hu & Hs & Hst & Hen & Hc & _).
  cbn [year_holidays map]. unfold entry_of at 1. rewrite E.
  rewrite Hu, Hs, Hst, Hen, Hc, (IH W). reflexivity.
Qed.

Lemma holidays_in_month_filter (m : Z) (ds : list value) :
  forallb is_record ds = true ->
  holidays_in_month m ds = Ok (filter (starts_in m) ds).
Proof.
  induction ds as [| h ds IH]; intros W; [reflexivity | ].
  simpl in W. apply andb_true_iff in W as [Wh W].
  destruct (is_record_read _ Wh) as [r E].
  destruct (read_record_inv h r E) as (_ & _ & Hst & _ & _ & Ps & _).
  cbn [holidays_in_month filter]. unfold starts_in at 1. rewrite E.
  rewrite Hst. cbn [bind]. rewrite Ps. cbn [bind]. rewrite (IH W).
  reflexivity.
Qed.

Lemma holidays_list_dataset (fs : filesystem) (y m : Z) (ds : list value) :
  dataset fs y ds ->
  holidays_list fs y m
    = match filter (starts_in m) ds with
      | [] =>
          Ok (mkresponse HTTP_200_OK
                (VDict [("response",
                         VStr "No holidays found for this month")]))
      | sel =>
          Ok (mkresponse HTTP_200_OK (VDict [("holidays", VList sel)]))
      end.
Proof.
  intros [F W]. unfold holidays_list, isfile, json_load. rewrite F.
  cbn [negb iter bind]. rewrite (holidays_in_month_filter m ds W).
  cbn [bind]. now destruct (filter (starts_in m) ds).
Qed.

Lemma subseq_filter {A : Type} (p : A -> bool) (l : list A) :
  subseq (filter p l) l.
Proof.
  induction l as [| a l IH]; simpl; [constructor | ].
  destruct (p a); now constructor.
Qed.

(** C5: for a year with a dataset the year listing holds one entry per
    record, in dataset order, none left out; the entry of a record is
    [{uid, holiday, start, end, categories}] with the record's uid,
    summary (under "holiday"), start, end and categories. *)
Theorem year_listing_roundtrip (fs : filesystem) (y : Z) (ds : list value) :
  dataset fs y ds ->
  exists hs,
    holidays_in_year fs y
      = Ok (mkresponse 200
              (VDict [("year", VInt y); ("holidays", VList hs)]))
    /\ List.length hs = List.length ds
    /\ forall i h,
         nth_error ds i = Some h ->
         exists u s st en c,
           getitem h "uid" = Ok u
           /\ getitem h "summary" = Ok s
           /\ getitem h "start" = Ok st
           /\ getitem h "end" = Ok en
           /\ getitem h "categories" = Ok c
           /\ nth_error hs i
                = Some (VDict [("uid", u);
                               ("holiday", s);
                               ("start", st);
                               ("end", en);
                               ("categories", c)]).
Proof.
  intros [F W]. exists (map entry_of ds). split; [| split].
  - unfold holidays_in_year, isfile, json_load. rewrite F.
    cbn [negb iter bind]. now rewrite (year_holidays_map ds W).
  - apply length_map.
  - intros i h I.
    rewrite forallb_forall in W.
    destruct (is_record_read _ (W h (nth_error_In _ _ I))) as [r E].
    destruct (read_record_inv h r E) as (Hu & Hs & Hst & Hen & Hc & _).
    exists (rec_uid r), (rec_summary r), (rec_start r), (rec_end r),
      (rec_categories r).
    repeat (split; [assumption | ]).
    rewrite nth_error_map, I. cbn. unfold entry_of. now rewrite E.
Qed.

Lemma year_listing_roundtrip_witness :
  dataset sample_fs 2025 sample_2025
  /\ exists hs,
       holidays_in_year sample_fs 2025
         = Ok (mkresponse 200
                 (VDict [("year", VInt 2025); ("holidays", VList hs)]))
       /\ List.length hs = List.length sample_2025
       /\ forall i h,
            nth_error sample_2025 i = Some h ->
            exists u s st en c,
              getitem h "uid" = Ok u
              /\ getitem h "summary" = Ok s
              /\ getitem h "start" = Ok st
              /\ getitem h "end" = Ok en
              /\ getitem h "categories" = Ok c
              /\ nth_error hs i
                   = Some (VDict [("uid", u);
                                  ("holiday", s);
                                  ("start", st);
                                  ("end", en);
                                  ("categories", c)]).
Proof.
  assert (D : dataset sample_fs 2025 sample_2025) by (split; reflexivity).
  split; [exact D | ].
  apply (year_listing_roundtrip sample_fs 2025 sample_2025 D).
Defined.

(** C4: for a year with a dataset the month listing holds exactly the
    records whose start date is in the queried month, so that a record
    that starts in another month is left out even when its range reaches
    into the queried month; when no record starts in the month the answer
    is [{"response": "No holidays found for this month"}], not an empty
    list. *)
Theorem month_listing_by_start_month (fs : filesystem) (y m : Z)
    (ds : list value) :
  dataset fs y ds ->
  exists sel,
    (forall h,
       In h sel <->
       In h ds /\ exists r, read_record h = Some r
                            /\ Datetime.month (start_date r) = m)
    /\ (forall h r,
          In h ds -> read_record h = Some r ->
          Datetime.month (start_date r) <> m ->
          Datetime.month (end_date r) = m ->
          ~ In h sel)
    /\ (sel <> [] ->
        holidays_list fs y m
          = Ok (mkresponse 200 (VDict [("holidays", VList sel)])))
    /\ (sel = [] ->
        holidays_list fs y m
          = Ok (mkresponse 200
                  (VDict [("response",
                           VStr "No holidays found for this month")]))).
Proof.
  intros D. exists (filter (starts_in m) ds).
  assert (M : forall h,
             In h (filter (starts_in m) ds) <->
             In h ds /\ exists r, read_record h = Some r
                                  /\ Datetime.month (start_date r) = m).
  { intros h. rewrite filter_In. unfold starts_in. split.
    - intros [I S]. split; [exact I | ].
      destruct (read_record h) as [r |]; [| discriminate].
      exists r. split; [reflexivity | ]. now apply Z.eqb_eq.
    - intros [I (r & E & S)]. split; [exact I | ].
      rewrite E. now apply Z.eqb_eq. }
  split; [exact M | ]. split; [| split].
  - intros h r I E S _ J. apply M in J as [_ (r' & E' & S')].
    rewrite E in E'. injection E' as <-. contradiction.
  - intros N. rewrite (holidays_list_dataset _ _ _ _ D).
    now destruct (filter (starts_in m) ds).
  - intros N. rewrite (holidays_list_dataset _ _ _ _ D). now rewrite N.
Qed.

Lemma month_listing_by_start_month_witness :
  dataset sample_fs 2025 sample_2025
  /\ exists sel,
       (forall h,
          In h sel <->
          In h sample_2025
          /\ exists r, read_record h = Some r
                       /\ Datetime.month (start_date r) = 5)
       /\ (forall h r,
             In h sample_2025 -> read_record h = Some r ->
             Datetime.month (start_date r) <> 5 ->
             Datetime.month (end_date r) = 5 ->
             ~ In h sel)
       /\ (sel <> [] ->
           holidays_list sample_fs 2025 5
             = Ok (mkresponse 200 (VDict [("holidays", VList sel)])))
       /\ (sel = [] ->
           holidays_list sample_fs 2025 5
             = Ok (mkresponse 200
                     (VDict [("response",
                              VStr "No holidays found for this month")]))).
Proof.
  assert (D : dataset sample_fs 2025 sample_2025) by (split; reflexivity).
  split; [exact D | ].
  apply (month_listing_by_start_month sample_fs 2025 5 sample_2025 D).
Defined.

(** C10: the month listing returns the selected records as they are
    stored, in dataset order: each listed item is the stored value
    itself, with its keys uid, summary, start, end and categories; it is
    neither the renamed entry of the year listing nor the detail record of
    a resolved date. *)
Theorem month_listing_verbatim (fs : filesystem) (y m : Z)
    (ds : list value) :
  dataset fs y ds ->
  (exists h, In h ds /\ starts_in m h = true) ->
  exists sel,
    holidays_list fs y m
      = Ok (mkresponse 200 (VDict [("holidays", VList sel)]))
    /\ subseq sel ds
    /\ forall h,
         In h sel ->
         In h ds
         /\ (exists u s st en c,
               getitem h "uid" = Ok u
               /\ getitem h "summary" = Ok s
               /\ getitem h "start" = Ok st
               /\ getitem h "end" = Ok en
               /\ getitem h "categories" = Ok c)
         /\ (forall r, h <> year_entry r)
         /\ (forall dt r, h <> holiday_detail dt r).
Proof.
  intros D (h0 & I0 & S0). exists (filter (starts_in m) ds).
  split; [| split].
  - rewrite (holidays_list_dataset _ _ _ _ D).
    destruct (filter (starts_in m) ds) eqn:F; [| reflexivity].
    assert (J : In h0 (filter (starts_in m) ds))
      by (apply filter_In; now split).
    rewrite F in J. destruct J.
  - apply subseq_filter.
  - intros h J. apply filter_In in J as [I _].
    destruct D as [_ W]. rewrite forallb_forall in W.
    destruct (is_record_read _ (W h I)) as [r E].
    destruct (read_record_inv h r E) as (Hu & Hs & Hst & Hen & Hc & _).
    split; [exact I | ]. split; [| split].
    + exists (rec_uid r), (rec_summary r), (rec_start r), (rec_end r),
        (rec_categories r). repeat split; assumption.
    + intros r' ->. discriminate Hs.
    + intros dt r' ->. discriminate Hs.
Qed.

Lemma month_listing_verbatim_witness :
  dataset sample_fs 2025 sample_2025
  /\ holidays_list sample_fs 2025 4
       = Ok (mkresponse 200
               (VDict [("holidays",
                        VList [sample_h2; sample_h3; sample_h4])]))
  /\ exists sel,
       holidays_list sample_fs 2025 4
         = Ok (mkresponse 200 (VDict [("holidays", VList sel)]))
       /\ subseq sel sample_2025
       /\ forall h,
            In h sel ->
            In h sample_2025
            /\ (exists u s st en c,
                  getitem h "uid" = Ok u
                  /\ getitem h "summary" = Ok s
                  /\ getitem h "start" = Ok st
                  /\ getitem h "end" = Ok en
                  /\ getitem h "categories" = Ok c)
            /\ (forall r, h <> year_entry r)
            /\ (forall dt r, h <> holiday_detail dt r).
Proof.
  assert (D : dataset sample_fs 2025 sample_2025) by (split; reflexivity).
  split; [exact D | ]. split; [reflexivity | ].
  apply (month_listing_verbatim sample_fs 2025 4 sample_2025 D).
  exists sample_h2. split; [simpl; tauto | reflexivity].
Defined.

(** ** The scenario of the specification, evaluated *)

Example scenario_new_year :
  get_holiday_info sample_fs 2025 1 1
    = Ok (VDate (Datetime.mkdate 2025 1 1), 200,
          VDict [("day", VStr "Wednesday");
                 ("week", VStr "00");
                 ("month", VStr "January");
                 ("is_holiday", VBool true);
                 ("id", VStr "h1");
                 ("holiday", VStr "New Year");
                 ("categories", VList [VStr "public"]);
                 ("holiday_start", VStr "2025-01-01");
                 ("holiday_end", VStr "2025-01-01")]).
Proof. reflexivity. Qed.

Example scenario_not_holiday :
  get_holiday_info sample_fs 2025 1 2
    = Ok (VDate (Datetime.mkdate 2025 1 2), 200,
          VDict [("is_holiday", VBool false)]).
Proof. reflexivity. Qed.

Example scenario_invalid_date :
  get_holiday_info sample_fs 2025 2 30
    = Ok (VNone, 400, VDict [("error", VStr "invalid date")]).
Proof. reflexivity. Qed.

Example scenario_overlap_first_wins :
  exists detail,
    get_holiday_info sample_fs 2025 4 13
      = Ok (VDate (Datetime.mkdate 2025 4 13), 200, detail)
    /\ getitem detail "id" = Ok (VStr "h2")
    /\ coversb (Datetime.mkdate 2025 4 13) sample_h3 = true.
Proof. eexists. repeat split. Qed.

Example scenario_month_listing :
  holidays_list sample_fs 2025 1
    = Ok (mkresponse 200 (VDict [("holidays", VList [sample_h1])]))
  /\ holidays_list sample_fs 2025 2
       = Ok (mkresponse 200
               (VDict [("response",
                        VStr "No holidays found for this month")]))
  /\ holidays_list sample_fs 2025 5
       = Ok (mkresponse 200
               (VDict [("response",
                        VStr "No holidays found for this month")])).
Proof. repeat split. Qed.

Example scenario_empty_and_unreadable_files :
  api_coverage_year sample_fs 2023
    = Ok (mkresponse 200 (VDict [("year", VInt 2023); ("coverage", VStr "ok")]))
  /\ api_coverage_year sample_fs 2024
       = Ok (mkresponse 200
               (VDict [("year", VInt 2024); ("coverage", VStr "ok")]))
  /\ get_holiday_info sample_fs 2024 1 1 = Raise JSONDecodeError
  /\ holidays_in_year sample_fs 2023
       = Ok (mkresponse 200
               (VDict [("year", VInt 2023); ("holidays", VList [])])).
Proof. repeat split. Qed.

Example strptime_samples :
  Strptime.strptime (VStr "2025-01-01") = Ok (Datetime.mkdate 2025 1 1)
  /\ Strptime.strptime (VStr "2025-1-1") = Ok (Datetime.mkdate 2025 1 1)
  /\ Strptime.strptime (VStr "2024-02-29") = Ok (Datetime.mkdate 2024 2 29)
  /\ Strptime.strptime (VStr "2025-02-29") = Raise ValueError
  /\ Strptime.strptime (VStr "2025-13-01") = Raise ValueError
  /\ Strptime.strptime (VStr "2025-01-011") = Raise ValueError
  /\ Strptime.strptime (VStr "25-01-01") = Raise ValueError
  /\ Strptime.strptime (VInt 20250101) = Raise TypeError.
Proof. repeat split. Qed.

Example week_numbers :
  Datetime.strftime_A (Datetime.mkdate 2023 1 1) = "Sunday"
  /\ Datetime.strftime_W (Datetime.mkdate 2023 1 1) = "00"
  /\ Datetime.strftime_W (Datetime.mkdate 2023 1 2) = "01"
  /\ Datetime.strftime_A (Datetime.mkdate 2024 1 1) = "Monday"
  /\ Datetime.strftime_W (Datetime.mkdate 2024 1 1) = "01"
  /\ Datetime.strftime_W (Datetime.mkdate 2025 1 5) = "00"
  /\ Datetime.strftime_W (Datetime.mkdate 2025 1 6) = "01"
  /\ Datetime.strftime_W (Datetime.mkdate 2024 12 30) = "53".
Proof. repeat split. Qed.

(** * Further properties of the handlers *)

(** ** The loop of [get_holiday_info] on arbitrary stored values *)

Lemma scan_holidays_step (dt : Datetime.date) (h : value)
    (rest : list value) :
  scan_holidays dt (h :: rest)
    = rg <- record_range h ;;
      if in_rangeb dt rg then holiday_outcome dt h
      else scan_holidays dt rest.
Proof.
  cbn [scan_holidays]. unfold record_range, holiday_outcome, in_rangeb.
  destruct (getitem h "start") as [s |]; cbn [bind]; [| reflexivity].
  destruct (Strptime.strptime s) as [sd |]; cbn [bind]; [| reflexivity].
  destruct (getitem h "end") as [e |]; cbn [bind]; [| reflexivity].
  destruct (Strptime.strptime e) as [ed |]; cbn [bind]; reflexivity.
Qed.

Lemma in_rangeb_spec (dt sd ed : Datetime.date) :
  in_rangeb dt (sd, ed) = true <-> date_leq sd dt /\ date_leq dt ed.
Proof.
  unfold in_rangeb. cbn [fst snd]. now rewrite andb_true_iff, !le_spec.
Qed.

Lemma read_record_range (h : value) (r : HolidayRecord) :
  read_record h = Some r ->
  record_range h = Ok (start_date r, end_date r).
Proof.
  intros E.
  destruct (read_record_inv h r E) as (_ & _ & Hst & Hen & _ & Ps & Pe).
  unfold record_range. rewrite Hst. cbn [bind]. rewrite Ps. cbn [bind].
  rewrite Hen. cbn [bind]. rewrite Pe. reflexivity.
Qed.

Lemma read_record_outcome (dt : Datetime.date) (h : value)
    (r : HolidayRecord) :
  read_record h = Some r ->
  holiday_outcome dt h = Ok (VDate dt, HTTP_200_OK, holiday_detail dt r).
Proof.
  intros E.
  destruct (read_record_inv h r E) as (Hu & Hs & Hst & Hen & Hc & _).
  unfold holiday_outcome. now rewrite Hu, Hs, Hc, Hst, Hen.
Qed.

Lemma scan_holidays_skip (dt : Datetime.date) (pre : list value) (h : value)
    (post : list value) (rg : Datetime.date * Datetime.date) :
  record_range h = Ok rg ->
  in_rangeb dt rg = false ->
  scan_holidays dt (pre ++ h :: post) = scan_holidays dt (pre ++ post).
Proof.
  intros R C. induction pre as [| p pre IH].
  - cbn [app]. rewrite scan_holidays_step, R. cbn [bind]. now rewrite C.
  - cbn [app]. rewrite !scan_holidays_step.
    destruct (record_range p) as [rp |]; cbn [bind]; [| reflexivity].
    now destruct (in_rangeb dt rp).
Qed.

Lemma scan_holidays_find (dt : Datetime.date) (ds : list value) :
  forallb is_record ds = true ->
  scan_holidays dt ds
    = Ok (VDate dt, HTTP_200_OK,
          match find (coversb dt) ds with
          | Some h =>
              match read_record h with
              | Some r => holiday_detail dt r
              | None => VNone
              end
          | None => VDict [("is_holiday", VBool false)]
          end).
Proof.
  induction ds as [| h ds IH]; intros W; [reflexivity | ].
  simpl in W. apply andb_true_iff in W as [Wh W].
  destruct (is_record_read _ Wh) as [r E].
  rewrite (scan_holidays_cons _ _ _ _ E). cbn [find].
  destruct (coversb dt h); [now rewrite E | now apply IH].
Qed.

(** X1: for a calendar date in a year with a dataset, [get_holiday_info]
    always answers with status 200 and the date, and its [is_holiday] is
    true exactly when some record of the dataset contains the date, false
    exactly when none does. *)
Theorem is_holiday_iff_covered (fs : filesystem) (y m d : Z)
    (ds : list value) :
  valid_date y m d ->
  dataset fs y ds ->
  exists detail,
    get_holiday_info fs y m d
      = Ok (VDate (Datetime.mkdate y m d), 200, detail)
    /\ (getitem detail "is_holiday" = Ok (VBool true)
        <-> exists h r, In h ds /\ read_record h = Some r
                        /\ covers r (Datetime.mkdate y m d))
    /\ (getitem detail "is_holiday" = Ok (VBool false)
        <-> forall h r, In h ds -> read_record h = Some r ->
                        ~ covers r (Datetime.mkdate y m d)).
Proof.
  intros V D. set (dt := Datetime.mkdate y m d).
  rewrite (get_holiday_info_dataset _ _ _ _ _ V D). fold dt.
  destruct D as [_ W]. rewrite (scan_holidays_find dt ds W).
  eexists. split; [reflexivity | ].
  destruct (find (coversb dt) ds) as [h |] eqn:F.
  - apply find_some in F as [I C].
    pose proof W as W'. rewrite forallb_forall in W'.
    destruct (is_record_read _ (W' h I)) as [r E]. rewrite E.
    assert (Cr : covers r dt) by now apply (coversb_spec dt h r E).
    split; split.
    + intros _. now exists h, r.
    + reflexivity.
    + discriminate.
    + intros N. exfalso. exact (N h r I E Cr).
  - split; split.
    + discriminate.
    + intros (h & r & I & E & C). exfalso.
      pose proof (find_none _ _ F h I) as N.
      apply (coversb_spec dt h r E) in C. congruence.
    + intros _ h r I E C.
      pose proof (find_none _ _ F h I) as N.
      apply (coversb_spec dt h r E) in C. congruence.
    + reflexivity.
Qed.

Lemma is_holiday_iff_covered_witness :
  valid_date 2025 5 1
  /\ dataset sample_fs 2025 sample_2025
  /\ exists detail,
       get_holiday_info sample_fs 2025 5 1
         = Ok (VDate (Datetime.mkdate 2025 5 1), 200, detail)
       /\ (getitem detail "is_holiday" = Ok (VBool true)
           <-> exists h r, In h sample_2025 /\ read_record h = Some r
                           /\ covers r (Datetime.mkdate 2025 5 1))
       /\ (getitem detail "is_holiday" = Ok (VBool false)
           <-> forall h r, In h sample_2025 -> read_record h = Some r ->
                           ~ covers r (Datetime.mkdate 2025 5 1)).
Proof.
  assert (V : valid_date 2025 5 1) by (unfold valid_date; simpl; lia).
  assert (D : dataset sample_fs 2025 sample_2025) by (split; reflexivity).
  split; [exact V | ]. split; [exact D | ].
  apply (is_holiday_iff_covered sample_fs 2025 5 1 sample_2025 V D).
Defined.

(** X2: the loop stops at the first record that contains the date: the
    records stored after it are not read, so that the outcome is the
    Holiday detail of that record whatever follows it, values that are
    not records included. *)
Theorem records_after_match_not_read (fs : filesystem) (y m d : Z)
    (pre : list value) (h : value) (post : list value) (r : HolidayRecord) :
  valid_date y m d ->
  fs y = Some (Json (VList (pre ++ h :: post))) ->
  forallb is_record pre = true ->
  read_record h = Some r ->
  covers r (Datetime.mkdate y m d) ->
  (forall h' r', In h' pre -> read_record h' = Some r' ->
                 ~ covers r' (Datetime.mkdate y m d)) ->
  get_holiday_info fs y m d
    = Ok (VDate (Datetime.mkdate y m d), 200,
          holiday_detail (Datetime.mkdate y m d) r).
Proof.
  intros V F W E C N. unfold get_holiday_info, isfile, json_load.
  rewrite (new_valid _ _ _ V), F. cbn [negb iter bind].
  apply scan_holidays_first; try assumption.
  - now apply (coversb_spec _ h r E).
  - now apply not_covers_coversb.
Qed.

Lemma records_after_match_not_read_witness :
  get_holiday_info
    (one_file 2025 (Json (VList ([sample_h1] ++ sample_h2
                                   :: [VInt 7; VStr "no record"]))))
    2025 4 14
  = Ok (VDate (Datetime.mkdate 2025 4 14), 200,
        holiday_detail (Datetime.mkdate 2025 4 14)
          (mkrecord (VStr "h2") (VStr "Sinhala and Tamil New Year")
             (VStr "2025-04-13") (VStr "2025-04-14")
             (VList [VStr "public"; VStr "bank"])
             (Datetime.mkdate 2025 4 13) (Datetime.mkdate 2025 4 14))).
Proof.
  apply (records_after_match_not_read _ 2025 4 14 [sample_h1] sample_h2
           [VInt 7; VStr "no record"]).
  - unfold valid_date; simpl; lia.
  - reflexivity.
  - reflexivity.
  - reflexivity.
  - unfold covers, date_leq; simpl; lia.
  - intros h' r' [<- | []] E. vm_compute in E. injection E as <-.
    unfold covers, date_leq; simpl; lia.
Defined.




Lemma get_holiday_info_skip (fs fs' : filesystem) (y m d : Z)
    (pre : list value) (h : value) (post : list value)
    (rg : Datetime.date * Datetime.date) :
  fs y = Some (Json (VList (pre ++ h :: post))) ->
  fs' y = Some (Json (VList (pre ++ post))) ->
  record_range h = Ok rg ->
  in_rangeb (Datetime.mkdate y m d) rg = false ->
  get_holiday_info fs y m d = get_holiday_info fs' y m d.
Proof.
  intros F F' R C. unfold get_holiday_info, isfile, json_load.
  destruct (valid_date_dec y m d) as [V | N].
  - rewrite (new_valid _ _ _ V), F, F'. cbn [negb iter bind].
    now apply scan_holidays_skip with (rg := rg).
  - now rewrite (new_invalid _ _ _ N).
Qed.

(** X4: a record whose range does not contain the date has no part in
    the outcome: [get_holiday_info] answers as it does on the dataset
    without that record. *)
Theorem record_not_covering_is_skipped (fs fs' : filesystem) (y m d : Z)
    (pre : list value) (h : value) (post : list value)
    (sd ed : Datetime.date) :
  fs y = Some (Json (VList (pre ++ h :: post))) ->
  fs' y = Some (Json (VList (pre ++ post))) ->
  record_range h = Ok (sd, ed) ->
  ~ (date_leq sd (Datetime.mkdate y m d)
     /\ date_leq (Datetime.mkdate y m d) ed) ->
  get_holiday_info fs y m d = get_holiday_info fs' y m d.
Proof.
  intros F F' R N.
  apply (get_holiday_info_skip fs fs' y m d pre h post (sd, ed) F F' R).
  destruct (in_rangeb (Datetime.mkdate y m d) (sd, ed)) eqn:C;
    [| reflexivity].
  exfalso. apply N. now apply in_rangeb_spec.
Qed.

Lemma record_not_covering_is_skipped_witness :
  get_holiday_info
    (one_file 2025 (Json (VList ([sample_h1] ++ sample_h3 :: [sample_h4]))))
    2025 4 30
  = get_holiday_info
      (one_file 2025 (Json (VList ([sample_h1] ++ [sample_h4]))))
      2025 4 30.
Proof.
  apply (record_not_covering_is_skipped _ _ 2025 4 30 [sample_h1] sample_h3
           [sample_h4] (Datetime.mkdate 2025 4 12) (Datetime.mkdate 2025 4 13)).
  - reflexivity.
  - reflexivity.
  - reflexivity.
  - unfold date_leq; simpl; lia.
Defined.

Lemma date_leq_trans (a b c : Datetime.date) :
  date_leq a b -> date_leq b c -> date_leq a c.
Proof. unfold date_leq. lia. Qed.

(** X5: a record whose end is before its start contains no date: for
    every query [get_holiday_info] answers as on the dataset without
    it. *)
Theorem inverted_range_never_matches (fs fs' : filesystem) (y m d : Z)
    (pre : list value) (h : value) (post : list value)
    (sd ed : Datetime.date) :
  fs y = Some (Json (VList (pre ++ h :: post))) ->
  fs' y = Some (Json (VList (pre ++ post))) ->
  record_range h = Ok (sd, ed) ->
  ~ date_leq sd ed ->
  get_holiday_info fs y m d = get_holiday_info fs' y m d.
Proof.
  intros F F' R N.
  apply (get_holiday_info_skip fs fs' y m d pre h post (sd, ed) F F' R).
  destruct (in_rangeb (Datetime.mkdate y m d) (sd, ed)) eqn:C;
    [| reflexivity].
  exfalso. apply N. apply in_rangeb_spec in C as [C1 C2].
  exact (date_leq_trans _ _ _ C1 C2).
Qed.

Lemma inverted_range_never_matches_witness :
  get_holiday_info
    (one_file 2025
       (Json (VList ([] ++ sample_record "h8" "Backwards" "2025-06-10"
                               "2025-06-01" []
                        :: [sample_h1]))))
    2025 6 5
  = get_holiday_info (one_file 2025 (Json (VList ([] ++ [sample_h1]))))
      2025 6 5.
Proof.
  apply (inverted_range_never_matches _ _ 2025 6 5 []
           (sample_record "h8" "Backwards" "2025-06-10" "2025-06-01" [])
           [sample_h1] (Datetime.mkdate 2025 6 10) (Datetime.mkdate 2025 6 1)).
  - reflexivity.
  - reflexivity.
  - reflexivity.
  - unfold date_leq; simpl; lia.
Defined.

(** ** The month listing reads every record *)

Lemma holidays_in_month_step (m : Z) (h : value) (rest : list value) :
  holidays_in_month m (h :: rest)
    = start <- record_start h ;;
      tl <- holidays_in_month m rest ;;
      Ok (if Datetime.month start =? m then h :: tl else tl).
Proof.
  cbn [holidays_in_month]. unfold record_start.
  destruct (getitem h "start") as [s |]; cbn [bind]; reflexivity.
Qed.




(** ** The shape of every answer of [get_holiday_info] *)

Lemma holiday_outcome_shape (dt : Datetime.date) (h : value)
    (out : value * Z * value) :
  holiday_outcome dt h = Ok out ->
  exists res,
    out = (VDate dt, HTTP_200_OK, res)
    /\ getitem res "is_holiday" = Ok (VBool true).
Proof.
  unfold holiday_outcome.
  destruct (getitem h "uid"); cbn [bind]; [| discriminate].
  destruct (getitem h "summary"); cbn [bind]; [| discriminate].
  destruct (getitem h "categories"); cbn [bind]; [| discriminate].
  destruct (getitem h "start"); cbn [bind]; [| discriminate].
  destruct (getitem h "end"); cbn [bind]; [| discriminate].
  intros E. injection E as <-. eexists. split; reflexivity.
Qed.

Lemma scan_holidays_shape (dt : Datetime.date) (l : list value)
    (out : value * Z * value) :
  scan_holidays dt l = Ok out ->
  exists res b,
    out = (VDate dt, HTTP_200_OK, res)
    /\ getitem res "is_holiday" = Ok (VBool b).
Proof.
  induction l as [| h rest IH].
  - cbn [scan_holidays]. intros E. injection E as <-.
    eexists. exists false. split; reflexivity.
  - rewrite scan_holidays_step.
    destruct (record_range h) as [rg |]; cbn [bind]; [| discriminate].
    destruct (in_rangeb dt rg); [| exact IH].
    intros E. destruct (holiday_outcome_shape dt h out E) as (res & -> & K).
    now exists res, true.
Qed.

Lemma get_holiday_info_shape (fs : filesystem) (y m d : Z)
    (dp : value) (st : Z) (res : value) :
  get_holiday_info fs y m d = Ok (dp, st, res) ->
  (~ valid_date y m d /\ dp = VNone /\ st = 400
   /\ res = VDict [("error", VStr "invalid date")])
  \/ (valid_date y m d /\ fs y = None
      /\ dp = VDate (Datetime.mkdate y m d) /\ st = 404
      /\ res = VDict [("error", VStr "requested year not available")])
  \/ (valid_date y m d /\ fs y <> None
      /\ dp = VDate (Datetime.mkdate y m d) /\ st = 200
      /\ exists b, getitem res "is_holiday" = Ok (VBool b)).
Proof.
  unfold get_holiday_info.
  destruct (valid_date_dec y m d) as [V | N].
  - rewrite (new_valid _ _ _ V).
    destruct (isfile fs y) eqn:F; cbn [negb].
    + intros E. right. right. apply isfile_true in F.
      destruct (json_load fs y) as [v |]; cbn [bind] in E; [| discriminate].
      destruct (iter v) as [l |]; cbn [bind] in E; [| discriminate].
      destruct (scan_holidays_shape _ _ _ E) as (res' & b & Eq & K).
      injection Eq as -> -> ->.
      split; [exact V | ]. split; [exact F | ].
      split; [reflexivity | ]. split; [reflexivity | ]. now exists b.
    + intros E. right. left. apply isfile_false in F.
      injection E as <- <- <-.
      split; [exact V | ]. split; [exact F | ]. repeat split.
  - rewrite (new_invalid _ _ _ N). intros E. left.
    injection E as <- <- <-. split; [exact N | ]. repeat split.
Qed.

(** X7: whatever the files hold, an answer of [get_holiday_info] has
    status 200, 400 or 404; its date is [None] exactly when the status is
    400, which is exactly when the triple is no calendar date, and
    otherwise the date built from the triple; status 404 is exactly a
    calendar date without a file; a status-200 result always has a boolean
    [is_holiday]. *)
Theorem get_holiday_info_answers (fs : filesystem) (y m d : Z)
    (dp : value) (st : Z) (res : value) :
  get_holiday_info fs y m d = Ok (dp, st, res) ->
  (st = 200 \/ st = 400 \/ st = 404)
  /\ (dp = VNone <-> st = 400)
  /\ (st = 400 <-> ~ valid_date y m d)
  /\ (st <> 400 -> dp = VDate (Datetime.mkdate y m d))
  /\ (st = 404 <-> valid_date y m d /\ fs y = None)
  /\ (st = 200 -> exists b, getitem res "is_holiday" = Ok (VBool b)).
Proof.
  intros E.
  destruct (get_holiday_info_shape _ _ _ _ _ _ _ E)
    as [(N & -> & -> & _) | [(V & F & -> & -> & _) | (V & F & -> & -> & K)]].
  - split; [lia | ]. split; [tauto | ]. split; [tauto | ].
    split; [congruence | ]. split; [| discriminate].
    split; [discriminate | tauto].
  - split; [lia | ]. split; [split; discriminate | ].
    split; [split; [discriminate | tauto] | ].
    split; [reflexivity | ]. split; [tauto | discriminate].
  - split; [lia | ]. split; [split; discriminate | ].
    split; [split; [discriminate | tauto] | ].
    split; [reflexivity | ]. split; [| intros _; exact K].
    split; [discriminate | ]. intros [_ F']. contradiction.
Qed.

Lemma get_holiday_info_answers_witness :
  (404 = 200 \/ 404 = 400 \/ 404 = 404)
  /\ (VDate (Datetime.mkdate 2050 6 1) = VNone <-> 404 = 400)
  /\ (404 = 400 <-> ~ valid_date 2050 6 1)
  /\ (404 <> 400 ->
      VDate (Datetime.mkdate 2050 6 1) = VDate (Datetime.mkdate 2050 6 1))
  /\ (404 = 404 <-> valid_date 2050 6 1 /\ sample_fs 2050 = None)
  /\ (404 = 200 ->
      exists b,
        getitem (VDict [("error", VStr "requested year not available")])
          "is_holiday" = Ok (VBool b)).
Proof.
  apply (get_holiday_info_answers sample_fs 2050 6 1).
  reflexivity.
Defined.

(** X8: the two date endpoints fail together and answer together:
    [check_holiday] raises an error exactly when [holiday_info] raises
    it, and when they answer they carry the same status code.  In
    particular the lookup of [is_holiday] in [check_holiday] never
    fails. *)
Theorem date_endpoints_agree (fs : filesystem) (y m d : Z) :
  (forall e, check_holiday fs y m d = Raise e
             <-> holiday_info fs y m d = Raise e)
  /\ (forall r1,
        holiday_info fs y m d = Ok r1 ->
        exists r2, check_holiday fs y m d = Ok r2
                   /\ status_code r2 = status_code r1)
  /\ (forall r2,
        check_holiday fs y m d = Ok r2 ->
        exists r1, holiday_info fs y m d = Ok r1
                   /\ status_code r1 = status_code r2).
Proof.
  unfold check_holiday, holiday_info.
  destruct (get_holiday_info fs y m d) as [[[dp st] res] | e0] eqn:E;
    cbn [bind].
  - assert (C : exists r2,
               (if negb (st =? HTTP_200_OK)
                then Ok (mkresponse st (VDict [("response", res)]))
                else
                  is_holiday <- getitem res "is_holiday" ;;
                  if truthy is_holiday then Ok (mkresponse st res)
                  else Ok (mkresponse st
                             (VDict [("date", dp);
                                     ("response", VBool false)])))
               = Ok r2 /\ status_code r2 = st).
    { destruct (st =? HTTP_200_OK) eqn:S; cbn [negb].
      - apply Z.eqb_eq in S.
        destruct (get_holiday_info_shape _ _ _ _ _ _ _ E)
          as [(_ & _ & -> & _) | [(_ & _ & _ & -> & _) | (_ & _ & _ & _ & b & K)]];
          try discriminate.
        rewrite K. cbn [bind truthy]. destruct b; eexists; split; reflexivity.
      - eexists; split; reflexivity. }
    destruct C as (r2 & C & S). rewrite C. split; [| split].
    + intros e. split; discriminate.
    + intros r1 H. injection H as <-. now exists r2.
    + intros r2' H. injection H as <-. eexists. split; [reflexivity | ].
      now rewrite S.
  - split; [| split].
    + intros e. tauto.
    + discriminate.
    + discriminate.
Qed.

(** ** Which triples the handlers refuse *)

Lemma month_length_bounds (y m : Z) : 28 <= month_length y m <= 31.
Proof.
  unfold month_length. destruct (leap_year y);
    repeat match goal with
    | |- context [match ?x with _ => _ end] => destruct x
    end; lia.
Qed.

(** X9: among the triples the HTTP layer lets through, only the day can
    make the date invalid: the triple is a calendar date exactly when the
    day is within the month's length, status 400 is answered exactly when
    it is beyond it, and never for a day up to 28. *)
Theorem in_range_invalid_only_by_day (fs : filesystem) (y m d : Z) :
  in_range y m d ->
  (valid_date y m d <-> d <= month_length y m)
  /\ ((exists dp res, get_holiday_info fs y m d = Ok (dp, 400, res))
      <-> month_length y m < d)
  /\ (d <= 28 ->
      forall dp res, get_holiday_info fs y m d <> Ok (dp, 400, res)).
Proof.
  intros (Hy & Hm & Hd).
  assert (V : valid_date y m d <-> d <= month_length y m)
    by (unfold valid_date; lia).
  assert (S : (exists dp res, get_holiday_info fs y m d = Ok (dp, 400, res))
              <-> month_length y m < d).
  { split.
    - intros (dp & res & E).
      destruct (get_holiday_info_shape _ _ _ _ _ _ _ E)
        as [(N & _) | [(_ & _ & _ & St & _) | (_ & _ & _ & St & _)]];
        try discriminate.
      apply Z.nle_gt. intros L. apply N. now apply V.
    - intros L. exists VNone, (VDict [("error", VStr "invalid date")]).
      apply invalid_date_shape. intros W. apply V in W. lia. }
  split; [exact V | ]. split; [exact S | ].
  intros L dp res E.
  assert (B : month_length y m < d) by (apply S; now exists dp, res).
  pose proof (month_length_bounds y m). lia.
Qed.

Lemma in_range_invalid_only_by_day_witness :
  (valid_date 2024 2 29 <-> 29 <= month_length 2024 2)
  /\ ((exists dp res,
         get_holiday_info sample_fs 2024 2 29 = Ok (dp, 400, res))
      <-> month_length 2024 2 < 29)
  /\ (29 <= 28 ->
      forall dp res, get_holiday_info sample_fs 2024 2 29 <> Ok (dp, 400, res)).
Proof.
  apply (in_range_invalid_only_by_day sample_fs 2024 2 29).
  unfold in_range; lia.
Defined.

(** ** Files that hold no dataset *)

(** X10: a year file that is not JSON counts as coverage, and makes every
    data endpoint raise the decoding error for a calendar date: the
    handler of [FileNotFoundError] in [holidays_in_year] does not catch
    it. *)
Theorem not_json_file_raises (fs : filesystem) (y m d month : Z) :
  fs y = Some NotJson ->
  valid_date y m d ->
  api_coverage_year fs y
    = Ok (mkresponse 200 (VDict [("year", VInt y); ("coverage", VStr "ok")]))
  /\ get_holiday_info fs y m d = Raise JSONDecodeError
  /\ check_holiday fs y m d = Raise JSONDecodeError
  /\ holiday_info fs y m d = Raise JSONDecodeError
  /\ holidays_list fs y month = Raise JSONDecodeError
  /\ holidays_in_year fs y = Raise JSONDecodeError.
Proof.
  intros F V.
  unfold api_coverage_year, check_holiday, holiday_info, get_holiday_info,
    holidays_list, holidays_in_year, isfile, json_load.
  rewrite (new_valid _ _ _ V), F. repeat split.
Qed.

Lemma not_json_file_raises_witness :
  api_coverage_year sample_fs 2024
    = Ok (mkresponse 200
            (VDict [("year", VInt 2024); ("coverage", VStr "ok")]))
  /\ get_holiday_info sample_fs 2024 2 29 = Raise JSONDecodeError
  /\ check_holiday sample_fs 2024 2 29 = Raise JSONDecodeError
  /\ holiday_info sample_fs 2024 2 29 = Raise JSONDecodeError
  /\ holidays_list sample_fs 2024 2 = Raise JSONDecodeError
  /\ holidays_in_year sample_fs 2024 = Raise JSONDecodeError.
Proof.
  apply (not_json_file_raises sample_fs 2024 2 29 2).
  - reflexivity.
  - unfold valid_date; simpl; lia.
Defined.

Lemma iter_cases (v : value) :
  (exists l, v = VList l)
  \/ iter v = Raise TypeError
  \/ iter v = Ok []
  \/ (exists s l, iter v = Ok (VStr s :: l)).
Proof.
  destruct v as [| b | n | s | dt | l | kvs]; cbn [iter]; auto.
  - destruct s as [| c s]; cbn [chars]; [auto | ].
    right. right. right. eauto.
  - left. eauto.
  - destruct kvs as [| [k x] kvs]; cbn [map]; [auto | ].
    right. right. right. eauto.
Qed.

(** X11: a year file whose JSON document is not a list holds no usable
    dataset.  An empty object or an empty text is read as an empty
    dataset; every other document makes the three data endpoints raise
    [TypeError] for a calendar date. *)
Theorem non_list_document (fs : filesystem) (y m d month : Z) (v : value) :
  fs y = Some (Json v) ->
  (forall l, v <> VList l) ->
  valid_date y m d ->
  (iter v = Ok []
   /\ get_holiday_info fs y m d
        = Ok (VDate (Datetime.mkdate y m d), 200,
              VDict [("is_holiday", VBool false)])
   /\ holidays_list fs y month
        = Ok (mkresponse 200
                (VDict [("response",
                         VStr "No holidays found for this month")]))
   /\ holidays_in_year fs y
        = Ok (mkresponse 200
                (VDict [("year", VInt y); ("holidays", VList [])])))
  \/ (iter v <> Ok []
      /\ get_holiday_info fs y m d = Raise TypeError
      /\ holidays_list fs y month = Raise TypeError
      /\ holidays_in_year fs y = Raise TypeError).
Proof.
  intros F NL V.
  unfold get_holiday_info, holidays_list, holidays_in_year, isfile,
    json_load.
  rewrite (new_valid _ _ _ V), F. cbn [negb bind].
  destruct (iter_cases v) as [(l & ->) | [E | [E | (s & l & E)]]].
  - now destruct (NL l).
  - right. rewrite E. repeat split. discriminate.
  - left. rewrite E. repeat split.
  - right. rewrite E. repeat split. discriminate.
Qed.

Lemma non_list_document_witness :
  (iter (VDict [("holidays", VList [sample_h1])]) = Ok []
   /\ get_holiday_info
        (one_file 2025 (Json (VDict [("holidays", VList [sample_h1])])))
        2025 1 1
        = Ok (VDate (Datetime.mkdate 2025 1 1), 200,
              VDict [("is_holiday", VBool false)])
   /\ holidays_list
        (one_file 2025 (Json (VDict [("holidays", VList [sample_h1])])))
        2025 1
        = Ok (mkresponse 200
                (VDict [("response",
                         VStr "No holidays found for this month")]))
   /\ holidays_in_year
        (one_file 2025 (Json (VDict [("holidays", VList [sample_h1])])))
        2025
        = Ok (mkresponse 200
                (VDict [("year", VInt 2025); ("holidays", VList [])])))
  \/ (iter (VDict [("holidays", VList [sample_h1])]) <> Ok []
      /\ get_holiday_info
           (one_file 2025 (Json (VDict [("holidays", VList [sample_h1])])))
           2025 1 1 = Raise TypeError
      /\ holidays_list
           (one_file 2025 (Json (VDict [("holidays", VList [sample_h1])])))
           2025 1 = Raise TypeError
      /\ holidays_in_year
           (one_file 2025 (Json (VDict [("holidays", VList [sample_h1])])))
           2025 = Raise TypeError).
Proof.
  apply (non_list_document _ 2025 1 1 1
           (VDict [("holidays", VList [sample_h1])])).
  - reflexivity.
  - discriminate.
  - unfold valid_date; simpl; lia.
Defined.

(** ** The year listing reads keys, not dates *)

Lemma getitem_raise (h : value) (k : string) (e : exn) :
  getitem h k = Raise e -> e = KeyError \/ e = TypeError.
Proof.
  destruct h; cbn [getitem]; try (intros E; injection E as <-; now right).
  destruct (lookup k kvs); [discriminate | ].
  intros E; injection E as <-; now left.
Qed.

Lemma year_holidays_keys (ds : list value) :
  (forallb has_keys ds = true ->
   exists hs, year_holidays ds = Ok hs /\ List.length hs = List.length ds)
  /\ (forallb has_keys ds = false ->
      exists e, year_holidays ds = Raise e
                /\ (e = KeyError \/ e = TypeError)).
Proof.
  induction ds as [| h ds [IHt IHf]].
  - split; [now exists [] | discriminate].
  - cbn [forallb year_holidays]. unfold has_keys at 1 3.
    destruct (getitem h "uid") as [u | e1] eqn:E1; cbn [bind];
      [| split; [discriminate | intros _; exists e1; split;
                   [reflexivity | exact (getitem_raise _ _ _ E1)]]].
    destruct (getitem h "summary") as [s | e2] eqn:E2; cbn [bind];
      [| split; [discriminate | intros _; exists e2; split;
                   [reflexivity | exact (getitem_raise _ _ _ E2)]]].
    destruct (getitem h "start") as [st | e3] eqn:E3; cbn [bind];
      [| split; [discriminate | intros _; exists e3; split;
                   [reflexivity | exact (getitem_raise _ _ _ E3)]]].
    destruct (getitem h "end") as [en | e4] eqn:E4; cbn [bind];
      [| split; [discriminate | intros _; exists e4; split;
                   [reflexivity | exact (getitem_raise _ _ _ E4)]]].
    destruct (getitem h "categories") as [c | e5] eqn:E5; cbn [bind];
      [| split; [discriminate | intros _; exists e5; split;
                   [reflexivity | exact (getitem_raise _ _ _ E5)]]].
    cbn [andb]. split.
    + intros W. destruct (IHt W) as (hs & -> & L). cbn [bind].
      eexists. split; [reflexivity | ]. cbn [List.length]. now rewrite L.
    + intros W. destruct (IHf W) as (e & -> & K). cbn [bind]. now exists e.
Qed.

(** X12: the year listing succeeds on a stored list exactly when every
    item is a dict with the five keys; it never parses the dates, so a
    record whose start or end is no date is listed all the same.  When an
    item lacks a key or is no dict the handler raises [KeyError] or
    [TypeError], which its [except FileNotFoundError] does not catch. *)
Theorem year_listing_needs_only_keys (fs : filesystem) (y : Z)
    (ds : list value) :
  fs y = Some (Json (VList ds)) ->
  (forallb has_keys ds = true ->
   exists hs,
     holidays_in_year fs y
       = Ok (mkresponse 200
               (VDict [("year", VInt y); ("holidays", VList hs)]))
     /\ List.length hs = List.length ds)
  /\ (forallb has_keys ds = false ->
      exists e,
        holidays_in_year fs y = Raise e /\ (e = KeyError \/ e = TypeError)).
Proof.
  intros F. unfold holidays_in_year, isfile, json_load. rewrite F.
  cbn [negb iter bind].
  destruct (year_holidays_keys ds) as [Ht Hf]. split.
  - intros W. destruct (Ht W) as (hs & -> & L). now exists hs.
  - intros W. destruct (Hf W) as (e & -> & K). cbn [bind].
    exists e. split; [| exact K]. now destruct K as [-> | ->].
Qed.

Lemma year_listing_needs_only_keys_witness :
  exists hs,
    holidays_in_year
      (one_file 2025
         (Json (VList [sample_record "h7" "Some day" "soon" "later" []])))
      2025
    = Ok (mkresponse 200
            (VDict [("year", VInt 2025); ("holidays", VList hs)]))
    /\ List.length hs
       = List.length [sample_record "h7" "Some day" "soon" "later" []].
Proof.
  apply (year_listing_needs_only_keys _ 2025
           [sample_record "h7" "Some day" "soon" "later" []]).
  - reflexivity.
  - reflexivity.
Defined.

(** ** How the listings and the resolution fit together *)

Lemma strptime_valid (v : value) (dt : Datetime.date) :
  Strptime.strptime v = Ok dt ->
  valid_date (Datetime.year dt) (Datetime.month dt) (Datetime.day dt).
Proof.
  unfold Strptime.strptime.
  destruct v as [| | | s | | |]; try discriminate.
  destruct (Strptime.format_regex_match _) as [[[[Y mo] dd] rest] |];
    [| discriminate].
  destruct rest; [| discriminate].
  intros E. apply new_inv in E as [V ->]. exact V.
Qed.

Lemma listed_in_month_filter (fs : filesystem) (y m : Z) (ds : list value)
    (h : value) :
  dataset fs y ds ->
  (listed_in_month fs y m h <-> In h (filter (starts_in m) ds)).
Proof.
  intros D. unfold listed_in_month.
  rewrite (holidays_list_dataset _ _ _ _ D).
  destruct (filter (starts_in m) ds) as [| a sel] eqn:F.
  - split; [intros (sel & E & _); discriminate | intros []].
  - split.
    + intros (sel' & E & I). injection E as <-. exact I.
    + intros I. now exists (a :: sel).
Qed.

(** X13: the month listings of a year divide its dataset: every record
    is listed under one month from 1 to 12, the month of its start, and
    under no other. *)
Theorem each_record_in_one_month (fs : filesystem) (y : Z)
    (ds : list value) (h : value) :
  dataset fs y ds ->
  In h ds ->
  exists m,
    1 <= m <= 12
    /\ listed_in_month fs y m h
    /\ forall m', listed_in_month fs y m' h -> m' = m.
Proof.
  intros D I. pose proof D as [_ W]. rewrite forallb_forall in W.
  destruct (is_record_read _ (W h I)) as [r E].
  destruct (read_record_inv h r E) as (_ & _ & _ & _ & _ & Ps & _).
  exists (Datetime.month (start_date r)). split; [| split].
  - apply strptime_valid in Ps. unfold valid_date in Ps. lia.
  - apply (listed_in_month_filter fs y _ ds h D), filter_In.
    split; [exact I | ]. unfold starts_in. rewrite E. apply Z.eqb_refl.
  - intros m' L.
    apply (listed_in_month_filter fs y _ ds h D), filter_In in L as [_ S].
    unfold starts_in in S. rewrite E in S. apply Z.eqb_eq in S. lia.
Qed.

Lemma each_record_in_one_month_witness :
  exists m,
    1 <= m <= 12
    /\ listed_in_month sample_fs 2025 m sample_h4
    /\ forall m', listed_in_month sample_fs 2025 m' sample_h4 -> m' = m.
Proof.
  apply (each_record_in_one_month sample_fs 2025 sample_2025 sample_h4).
  - split; reflexivity.
  - simpl; tauto.
Defined.



(** ** Reading dates *)

Lemma day_cases (d : Z) :
  1 <= d <= 31 ->
  d = 1 \/ d = 2 \/ d = 3 \/ d = 4 \/ d = 5 \/ d = 6 \/ d = 7 \/ d = 8
  \/ d = 9 \/ d = 10 \/ d = 11 \/ d = 12 \/ d = 13 \/ d = 14 \/ d = 15
  \/ d = 16 \/ d = 17 \/ d = 18 \/ d = 19 \/ d = 20 \/ d = 21 \/ d = 22
  \/ d = 23 \/ d = 24 \/ d = 25 \/ d = 26 \/ d = 27 \/ d = 28 \/ d = 29
  \/ d = 30 \/ d = 31.
Proof. lia. Qed.

Ltac each_day d H :=
  let C := fresh "C" in
  pose proof (day_cases d H) as C;
  repeat (destruct C as [C | C]; [subst d | ]); [.. | subst d].

Lemma digit_char_facts (v : Z) :
  0 <= v <= 9 ->
  Strptime.digit (Datetime.digit_char v) = true
  /\ Strptime.chr_is " " (Datetime.digit_char v) = false
  /\ Z.of_nat (nat_of_ascii (Datetime.digit_char v)) - 48 = v.
Proof.
  intros H.
  assert (C : In v [0; 1; 2; 3; 4; 5; 6; 7; 8; 9]) by (cbn [In]; lia).
  cbn [In] in C.
  repeat (destruct C as [C | C]; [subst v; now vm_compute | ]).
  destruct C.
Qed.

Lemma match_year (ca cb cc ce : ascii) (rest : list ascii) :
  Strptime.digit ca = true -> Strptime.digit cb = true ->
  Strptime.digit cc = true -> Strptime.digit ce = true ->
  Strptime.format_regex_match (ca :: cb :: cc :: ce :: rest)
    = match
        Strptime.dash (fun s2 =>
          Strptime.group Strptime.re_m (fun m s3 =>
            Strptime.dash (fun s4 =>
              Strptime.group Strptime.re_d (fun d s5 =>
                Some ([ca; cb; cc; ce], m, d, s5)) s4) s3) s2) rest
      with
      | Some x => Some x
      | None => None
      end.
Proof.
  intros Ha Hb Hc He.
  unfold Strptime.format_regex_match, Strptime.re_Y.
  cbn [Strptime.group]. unfold Strptime.four.
  rewrite Ha, Hb, Hc, He. reflexivity.
Qed.

(** A padded text with a text after it: the year digits are arbitrary
    digits, the month and the day are written with two digits. *)
Lemma strptime_padded (ca cb cc ce : ascii) (m d : Z) (tail : string) :
  Strptime.digit ca = true -> Strptime.digit cb = true ->
  Strptime.digit cc = true -> Strptime.digit ce = true ->
  1 <= m <= 12 -> 1 <= d <= 31 ->
  Strptime.strptime
    (VStr (String ca (String cb (String cc (String ce
       (String "-"
          (String (Datetime.digit_char (m / 10))
             (String (Datetime.digit_char (m mod 10))
                (String "-"
                   (String (Datetime.digit_char (d / 10))
                      (String (Datetime.digit_char (d mod 10))
                         tail)))))))))))
  = match tail with
    | EmptyString => Datetime.new (Strptime.int [ca; cb; cc; ce]) m d
    | String _ _ => Raise ValueError
    end.
Proof.
  intros Ha Hb Hc He Hm Hd.
  unfold Strptime.strptime. cbn [list_ascii_of_string].
  rewrite (match_year ca cb cc ce _ Ha Hb Hc He).
  each_month m Hm; each_day d Hd; destruct tail; reflexivity.
Qed.

Lemma year_digits (y : Z) :
  1 <= y <= 9999 ->
  0 <= y / 1000 <= 9 /\ 0 <= y / 100 mod 10 <= 9
  /\ 0 <= y / 10 mod 10 <= 9 /\ 0 <= y mod 10 <= 9
  /\ 10 * (10 * (10 * (10 * 0 + y / 1000) + y / 100 mod 10) + y / 10 mod 10)
     + y mod 10 = y.
Proof. intros H. Z.div_mod_to_equations. lia. Qed.

Lemma iso_text_strptime (y m d : Z) (tail : string) :
  valid_date y m d ->
  Strptime.strptime
    (VStr (iso_text (Datetime.mkdate y m d) ++ tail))
  = match tail with
    | EmptyString => Ok (Datetime.mkdate y m d)
    | String _ _ => Raise ValueError
    end.
Proof.
  intros V. pose proof V as (Hy & Hm & Hd).
  destruct (year_digits y Hy) as (Da & Db & Dc & De & Y).
  destruct (digit_char_facts _ Da) as (Ha & Sa & Va).
  destruct (digit_char_facts _ Db) as (Hb & _ & Vb).
  destruct (digit_char_facts _ Dc) as (Hc & _ & Vc).
  destruct (digit_char_facts _ De) as (He & _ & Ve).
  pose proof (month_length_bounds y m) as B.
  unfold iso_text. cbn [Datetime.year Datetime.month Datetime.day append].
  rewrite (strptime_padded _ _ _ _ m d tail Ha Hb Hc He) by lia.
  destruct tail; [| reflexivity].
  cbn [Strptime.int]. rewrite Sa. cbn [Strptime.int_digits].
  rewrite Va, Vb, Vc, Ve, Y. now apply new_valid.
Qed.

(** X15: [strptime] yields calendar dates only: when it returns a date
    for a stored value, the value is a text and the date is one that
    [datetime.date] can hold, with its month from 1 to 12 and its day
    within the month's length. *)
Theorem strptime_yields_calendar_dates (v : value) (dt : Datetime.date) :
  Strptime.strptime v = Ok dt ->
  (exists s, v = VStr s)
  /\ valid_date (Datetime.year dt) (Datetime.month dt) (Datetime.day dt).
Proof.
  intros E. split; [| now apply strptime_valid with (v := v)].
  destruct v; try discriminate. eauto.
Qed.

Lemma strptime_yields_calendar_dates_witness :
  (exists s, VStr "2024-2-29" = VStr s) /\ valid_date 2024 2 29.
Proof.
  apply (strptime_yields_calendar_dates (VStr "2024-2-29")
           (Datetime.mkdate 2024 2 29)).
  reflexivity.
Defined.

(** X16: every calendar date written as [YYYY-MM-DD] with padding zeros
    is read back by [strptime] as that date. *)
Theorem strptime_reads_iso_text (y m d : Z) :
  valid_date y m d ->
  Strptime.strptime (VStr (iso_text (Datetime.mkdate y m d)))
    = Ok (Datetime.mkdate y m d).
Proof.
  intros V. pose proof (iso_text_strptime y m d EmptyString V) as H.
  replace (iso_text (Datetime.mkdate y m d) ++ "")%string
    with (iso_text (Datetime.mkdate y m d)) in H; [exact H | ].
  reflexivity.
Qed.

Lemma strptime_reads_iso_text_witness :
  iso_text (Datetime.mkdate 987 6 5) = "0987-06-05"
  /\ Strptime.strptime (VStr (iso_text (Datetime.mkdate 987 6 5)))
     = Ok (Datetime.mkdate 987 6 5).
Proof.
  split; [reflexivity | ].
  apply (strptime_reads_iso_text 987 6 5).
  unfold valid_date; simpl; lia.
Defined.

(** X17: [strptime] refuses text after the date: the padded text of a
    calendar date followed by anything, a time of day for one, raises
    [ValueError]. *)
Theorem strptime_refuses_trailing_text (y m d : Z) (c : ascii)
    (tail : string) :
  valid_date y m d ->
  Strptime.strptime
    (VStr (iso_text (Datetime.mkdate y m d) ++ String c tail))
    = Raise ValueError.
Proof.
  intros V. exact (iso_text_strptime y m d (String c tail) V).
Qed.

Lemma strptime_refuses_trailing_text_witness :
  (iso_text (Datetime.mkdate 2025 1 1) ++ String "T" "00:00:00")%string
    = "2025-01-01T00:00:00"
  /\ Strptime.strptime
       (VStr (iso_text (Datetime.mkdate 2025 1 1) ++ String "T" "00:00:00"))
     = Raise ValueError.
Proof.
  split; [reflexivity | ].
  apply (strptime_refuses_trailing_text 2025 1 1 "T" "00:00:00").
  unfold valid_date; simpl; lia.
Defined.

(** ** The derived fields *)

Lemma weekday_bounds (dt : Datetime.date) : 0 <= Datetime.weekday dt < 7.
Proof. unfold Datetime.weekday. apply Z.mod_pos_bound. lia. Qed.

Lemma strftime_A_name (dt : Datetime.date) :
  In (Datetime.strftime_A dt) Datetime.DAYNAMES.
Proof.
  unfold Datetime.strftime_A. apply nth_In.
  pose proof (weekday_bounds dt). cbn [Datetime.DAYNAMES List.length]. lia.
Qed.

Lemma strftime_B_name (y m d : Z) :
  1 <= m <= 12 ->
  nth_error Datetime.MONTHNAMES (Z.to_nat (m - 1))
    = Some (Datetime.strftime_B (Datetime.mkdate y m d)).
Proof.
  intros H. unfold Datetime.strftime_B. cbn [Datetime.month].
  each_month m H; reflexivity.
Qed.

Lemma scan_holidays_holiday (dt : Datetime.date) (l : list value)
    (dp : value) (st : Z) (res : value) :
  scan_holidays dt l = Ok (dp, st, res) ->
  getitem res "is_holiday" = Ok (VBool true) ->
  exists h, In h l /\ holiday_outcome dt h = Ok (dp, st, res).
Proof.
  induction l as [| h rest IH].
  - cbn [scan_holidays]. intros E K. injection E as <- <- <-. discriminate K.
  - rewrite scan_holidays_step.
    destruct (record_range h) as [rg |]; cbn [bind]; [| discriminate].
    destruct (in_rangeb dt rg).
    + intros E _. exists h. split; [now left | exact E].
    + intros E K. destruct (IH E K) as (h' & I & O).
      exists h'. split; [now right | exact O].
Qed.

Lemma holiday_outcome_derived (dt : Datetime.date) (h : value)
    (dp : value) (st : Z) (res : value) :
  holiday_outcome dt h = Ok (dp, st, res) ->
  getitem res "day" = Ok (VStr (Datetime.strftime_A dt))
  /\ getitem res "week" = Ok (VStr (Datetime.strftime_W dt))
  /\ getitem res "month" = Ok (VStr (Datetime.strftime_B dt))
  /\ getitem res "id" = getitem h "uid"
  /\ getitem res "holiday" = getitem h "summary"
  /\ getitem res "categories" = getitem h "categories"
  /\ getitem res "holiday_start" = getitem h "start"
  /\ getitem res "holiday_end" = getitem h "end".
Proof.
  unfold holiday_outcome.
  destruct (getitem h "uid"); cbn [bind]; [| discriminate].
  destruct (getitem h "summary"); cbn [bind]; [| discriminate].
  destruct (getitem h "categories"); cbn [bind]; [| discriminate].
  destruct (getitem h "start"); cbn [bind]; [| discriminate].
  destruct (getitem h "end"); cbn [bind]; [| discriminate].
  intros E. injection E as <- <- <-. repeat split.
Qed.

(** X18: whatever the files hold, a Holiday answer names one of the
    seven week days and the month of the query, and its week is two
    decimal digits for a number from 0 to 53; its id, holiday, categories,
    holiday_start and holiday_end are the uid, summary, categories, start
    and end of one stored record. *)
Theorem holiday_answer_fields (fs : filesystem) (y m d : Z)
    (dp : value) (st : Z) (res : value) :
  get_holiday_info fs y m d = Ok (dp, st, res) ->
  getitem res "is_holiday" = Ok (VBool true) ->
  exists day_name month_name week doc items,
    getitem res "day" = Ok (VStr day_name)
    /\ In day_name Datetime.DAYNAMES
    /\ getitem res "month" = Ok (VStr month_name)
    /\ nth_error Datetime.MONTHNAMES (Z.to_nat (m - 1)) = Some month_name
    /\ getitem res "week" = Ok (VStr (Datetime.two_digits week))
    /\ 0 <= week <= 53
    /\ fs y = Some (Json doc) /\ iter doc = Ok items /\
    exists h,
      In h items
      /\ getitem res "id" = getitem h "uid"
      /\ getitem res "holiday" = getitem h "summary"
      /\ getitem res "categories" = getitem h "categories"
      /\ getitem res "holiday_start" = getitem h "start"
      /\ getitem res "holiday_end" = getitem h "end".
Proof.
  intros E K. unfold get_holiday_info in E.
  destruct (valid_date_dec y m d) as [V | N].
  - rewrite (new_valid _ _ _ V) in E. unfold isfile, json_load in E.
    destruct (fs y) as [[| v] |] eqn:F; cbn [negb bind] in E.
    + discriminate.
    + destruct (iter v) as [l |] eqn:I; cbn [bind] in E; [| discriminate].
      destruct (scan_holidays_holiday _ _ _ _ _ E K) as (r & In_r & O).
      destruct (holiday_outcome_derived _ _ _ _ _ O)
        as (Hd & Hw & Hm & Hrest).
      exists (Datetime.strftime_A (Datetime.mkdate y m d)),
        (Datetime.strftime_B (Datetime.mkdate y m d)),
        (Datetime.week_W (Datetime.mkdate y m d)), v, l.
      split; [exact Hd | ]. split; [apply strftime_A_name | ].
      split; [exact Hm | ].
      split; [apply strftime_B_name; unfold valid_date in V; lia | ].
      split; [exact Hw | ]. split; [now apply week_W_bounds | ].
      split; [first [exact F | reflexivity] | ]. split; [exact I | ].
      exists r. split; [exact In_r | exact Hrest].
    + injection E as <- <- <-. discriminate K.
  - rewrite (new_invalid _ _ _ N) in E. injection E as <- <- <-.
    discriminate K.
Qed.

Lemma holiday_answer_fields_witness :
  exists day_name month_name week doc items,
    getitem (holiday_detail (Datetime.mkdate 2025 5 2)
               (mkrecord (VStr "h4") (VStr "Season")
                  (VStr "2025-04-30") (VStr "2025-05-02") (VList [])
                  (Datetime.mkdate 2025 4 30) (Datetime.mkdate 2025 5 2)))
      "day" = Ok (VStr day_name)
    /\ In day_name Datetime.DAYNAMES
    /\ getitem (holiday_detail (Datetime.mkdate 2025 5 2)
                  (mkrecord (VStr "h4") (VStr "Season")
                     (VStr "2025-04-30") (VStr "2025-05-02") (VList [])
                     (Datetime.mkdate 2025 4 30) (Datetime.mkdate 2025 5 2)))
         "month" = Ok (VStr month_name)
    /\ nth_error Datetime.MONTHNAMES (Z.to_nat (5 - 1)) = Some month_name
    /\ getitem (holiday_detail (Datetime.mkdate 2025 5 2)
                  (mkrecord (VStr "h4") (VStr "Season")
                     (VStr "2025-04-30") (VStr "2025-05-02") (VList [])
                     (Datetime.mkdate 2025 4 30) (Datetime.mkdate 2025 5 2)))
         "week" = Ok (VStr (Datetime.two_digits week))
    /\ 0 <= week <= 53
    /\ sample_fs 2025 = Some (Json doc) /\ iter doc = Ok items /\
    exists h,
      In h items
      /\ getitem (holiday_detail (Datetime.mkdate 2025 5 2)
                    (mkrecord (VStr "h4") (VStr "Season")
                       (VStr "2025-04-30") (VStr "2025-05-02") (VList [])
                       (Datetime.mkdate 2025 4 30)
                       (Datetime.mkdate 2025 5 2))) "id"
         = getitem h "uid"
      /\ getitem (holiday_detail (Datetime.mkdate 2025 5 2)
                    (mkrecord (VStr "h4") (VStr "Season")
                       (VStr "2025-04-30") (VStr "2025-05-02") (VList [])
                       (Datetime.mkdate 2025 4 30)
                       (Datetime.mkdate 2025 5 2))) "holiday"
         = getitem h "summary"
      /\ getitem (holiday_detail (Datetime.mkdate 2025 5 2)
                    (mkrecord (VStr "h4") (VStr "Season")
                       (VStr "2025-04-30") (VStr "2025-05-02") (VList [])
                       (Datetime.mkdate 2025 4 30)
                       (Datetime.mkdate 2025 5 2))) "categories"
         = getitem h "categories"
      /\ getitem (holiday_detail (Datetime.mkdate 2025 5 2)
                    (mkrecord (VStr "h4") (VStr "Season")
                       (VStr "2025-04-30") (VStr "2025-05-02") (VList [])
                       (Datetime.mkdate 2025 4 30)
                       (Datetime.mkdate 2025 5 2))) "holiday_start"
         = getitem h "start"
      /\ getitem (holiday_detail (Datetime.mkdate 2025 5 2)
                    (mkrecord (VStr "h4") (VStr "Season")
                       (VStr "2025-04-30") (VStr "2025-05-02") (VList [])
                       (Datetime.mkdate 2025 4 30)
                       (Datetime.mkdate 2025 5 2))) "holiday_end"
         = getitem h "end".
Proof.
  apply (holiday_answer_fields sample_fs 2025 5 2
           (VDate (Datetime.mkdate 2025 5 2)) 200).
  - reflexivity.
  - reflexivity.
Defined.

(** X19: from one day of a year to the next the week day advances by
    one, Sunday being followed by Monday, and the week number of [%W]
    goes up by one exactly when the next day is a Monday. *)
Theorem week_steps_on_monday (y m d m' d' : Z) :
  valid_date y m d ->
  valid_date y m' d' ->
  Datetime.yday (Datetime.mkdate y m' d')
    = Datetime.yday (Datetime.mkdate y m d) + 1 ->
  Datetime.weekday (Datetime.mkdate y m' d')
    = (Datetime.weekday (Datetime.mkdate y m d) + 1) mod 7
  /\ Datetime.week_W (Datetime.mkdate y m' d')
     = Datetime.week_W (Datetime.mkdate y m d)
       + (if Datetime.weekday (Datetime.mkdate y m' d') =? 0 then 1 else 0).
Proof.
  intros V V' S.
  pose proof (yday_bounds y m d V) as B.
  unfold Datetime.week_W, Datetime.weekday.
  rewrite (toordinal_yday (Datetime.mkdate y m' d')),
    (toordinal_yday (Datetime.mkdate y m d)), S.
  cbn [Datetime.year].
  set (o := Datetime.toordinal (Datetime.mkdate y 1 1)).
  set (n := Datetime.yday (Datetime.mkdate y m d)) in *.
  split.
  - Z.div_mod_to_equations. lia.
  - destruct (Z.eqb_spec ((o + (n + 1) - 1 + 6) mod 7) 0);
      Z.div_mod_to_equations; lia.
Qed.

Lemma week_steps_on_monday_witness :
  Datetime.weekday (Datetime.mkdate 2025 3 3)
    = (Datetime.weekday (Datetime.mkdate 2025 3 2) + 1) mod 7
  /\ Datetime.week_W (Datetime.mkdate 2025 3 3)
     = Datetime.week_W (Datetime.mkdate 2025 3 2)
       + (if Datetime.weekday (Datetime.mkdate 2025 3 3) =? 0 then 1 else 0).
Proof.
  apply (week_steps_on_monday 2025 3 2 3 3).
  - unfold valid_date; simpl; lia.
  - unfold valid_date; simpl; lia.
  - reflexivity.
Defined.

(** ** Date comparison is chronological *)

Lemma days_before_year_succ (y : Z) :
  Datetime.days_before_year (y + 1)
    = Datetime.days_before_year y + (if leap_year y then 366 else 365).
Proof.
  unfold Datetime.days_before_year, leap_year.
  replace (y + 1 - 1) with y by lia.
  destruct (Z.eqb_spec (y mod 400) 0), (Z.eqb_spec (y mod 100) 0),
    (Z.eqb_spec (y mod 4) 0); Z.div_mod_to_equations; lia.
Qed.

Lemma days_before_year_mono (y y' : Z) :
  y <= y' -> Datetime.days_before_year y <= Datetime.days_before_year y'.
Proof.
  intros H. unfold Datetime.days_before_year. Z.div_mod_to_equations. lia.
Qed.

Lemma toordinal_split (dt : Datetime.date) :
  Datetime.toordinal dt
    = Datetime.days_before_year (Datetime.year dt) + Datetime.yday dt.
Proof.
  unfold Datetime.toordinal, Datetime.ymd2ord, Datetime.yday. lia.
Qed.

Lemma toordinal_lt_years (y m d y' m' d' : Z) :
  valid_date y m d -> valid_date y' m' d' -> y < y' ->
  Datetime.toordinal (Datetime.mkdate y m d)
    < Datetime.toordinal (Datetime.mkdate y' m' d').
Proof.
  intros V V' L. rewrite !toordinal_split. cbn [Datetime.year].
  pose proof (yday_bounds y m d V) as B.
  pose proof (yday_bounds y' m' d' V') as B'.
  pose proof (days_before_year_succ y) as S.
  pose proof (days_before_year_mono (y + 1) y' ltac:(lia)) as M.
  destruct (leap_year y); lia.
Qed.

(** X20: the comparison of dates that the handlers use is the order of
    the calendar: for two calendar dates, also of different years, one is
    at most the other exactly when its day number, counted from 1 January
    of year 1, is at most the other's; dates with the same day number are
    the same date. *)
Theorem date_order_is_chronological (y m d y' m' d' : Z) :
  valid_date y m d ->
  valid_date y' m' d' ->
  (Datetime.le (Datetime.mkdate y m d) (Datetime.mkdate y' m' d') = true
   <-> Datetime.toordinal (Datetime.mkdate y m d)
       <= Datetime.toordinal (Datetime.mkdate y' m' d'))
  /\ (Datetime.toordinal (Datetime.mkdate y m d)
      = Datetime.toordinal (Datetime.mkdate y' m' d')
      -> y = y' /\ m = m' /\ d = d').
Proof.
  intros V V'.
  assert (O : date_leq (Datetime.mkdate y m d) (Datetime.mkdate y' m' d')
              <-> Datetime.toordinal (Datetime.mkdate y m d)
                  <= Datetime.toordinal (Datetime.mkdate y' m' d')).
  { destruct (Z.lt_trichotomy y y') as [L | [<- | L]].
    - pose proof (toordinal_lt_years _ _ _ _ _ _ V V' L).
      unfold date_leq. cbn [Datetime.year]. split; [lia | intros _; now left].
    - rewrite (yday_order y m' d' m d V' V), !toordinal_split.
      cbn [Datetime.year]. lia.
    - pose proof (toordinal_lt_years _ _ _ _ _ _ V' V L).
      unfold date_leq. cbn [Datetime.year]. split; lia. }
  assert (O' : date_leq (Datetime.mkdate y' m' d') (Datetime.mkdate y m d)
               <-> Datetime.toordinal (Datetime.mkdate y' m' d')
                   <= Datetime.toordinal (Datetime.mkdate y m d)).
  { destruct (Z.lt_trichotomy y' y) as [L | [<- | L]].
    - pose proof (toordinal_lt_years _ _ _ _ _ _ V' V L).
      unfold date_leq. cbn [Datetime.year]. split; [lia | intros _; now left].
    - rewrite (yday_order y' m d m' d' V V'), !toordinal_split.
      cbn [Datetime.year]. lia.
    - pose proof (toordinal_lt_years _ _ _ _ _ _ V V' L).
      unfold date_leq. cbn [Datetime.year]. split; lia. }
  split.
  - now rewrite le_spec.
  - intros E.
    assert (A : date_leq (Datetime.mkdate y m d) (Datetime.mkdate y' m' d'))
      by (apply O; lia).
    assert (B : date_leq (Datetime.mkdate y' m' d') (Datetime.mkdate y m d))
      by (apply O'; lia).
    unfold date_leq in A, B.
    cbn [Datetime.year Datetime.month Datetime.day] in A, B. lia.
Qed.

Lemma date_order_is_chronological_witness :
  (Datetime.le (Datetime.mkdate 2024 12 31) (Datetime.mkdate 2025 1 1) = true
   <-> Datetime.toordinal (Datetime.mkdate 2024 12 31)
       <= Datetime.toordinal (Datetime.mkdate 2025 1 1))
  /\ (Datetime.toordinal (Datetime.mkdate 2024 12 31)
      = Datetime.toordinal (Datetime.mkdate 2025 1 1)
      -> 2024 = 2025 /\ 12 = 1 /\ 31 = 1).
Proof.
  apply (date_order_is_chronological 2024 12 31 2025 1 1).
  - unfold valid_date; simpl; lia.
  - unfold valid_date; simpl; lia.
Defined.

(** ** What the listings can answer *)

Lemma holidays_in_month_sound (m : Z) (l sel : list value) :
  holidays_in_month m l = Ok sel ->
  forall h, In h sel ->
    In h l /\ exists dt, record_start h = Ok dt /\ Datetime.month dt = m.
Proof.
  revert sel. induction l as [| a l IH]; intros sel.
  - cbn [holidays_in_month]. intros E. injection E as <-. intros h [].
  - rewrite holidays_in_month_step.
    destruct (record_start a) as [dt |] eqn:S; cbn [bind]; [| discriminate].
    destruct (holidays_in_month m l) as [tl |]; cbn [bind]; [| discriminate].
    intros E. injection E as <-. intros h I.
    destruct (Z.eqb_spec (Datetime.month dt) m) as [M | M].
    + destruct I as [<- | I].
      * split; [now left | now exists dt].
      * destruct (IH tl eq_refl h I) as [J K]. split; [now right | exact K].
    + destruct (IH tl eq_refl h I) as [J K]. split; [now right | exact K].
Qed.

(** X21: whatever the files hold, an answer of the month listing has
    status 200 and is either the marker or a list that is not empty; each
    listed item is an item of the stored document whose start is a date
    of the queried month.  An empty list is never answered. *)
Theorem month_listing_answers (fs : filesystem) (y m : Z) (r : response) :
  holidays_list fs y m = Ok r ->
  status_code r = 200
  /\ (body r = VDict [("response", VStr "No holidays found for this month")]
      \/ exists a sel doc items,
           body r = VDict [("holidays", VList (a :: sel))]
           /\ fs y = Some (Json doc)
           /\ iter doc = Ok items
           /\ forall h, In h (a :: sel) ->
                In h items
                /\ exists dt, record_start h = Ok dt
                              /\ Datetime.month dt = m).
Proof.
  unfold holidays_list, isfile, json_load.
  destruct (fs y) as [[| doc] |] eqn:F; cbn [negb bind]; try discriminate.
  destruct (iter doc) as [items |] eqn:I; cbn [bind]; [| discriminate].
  destruct (holidays_in_month m items) as [sel |] eqn:H; cbn [bind];
    [| discriminate].
  destruct sel as [| a sel]; cbn [truthy].
  - intros E. injection E as <-. split; [reflexivity | now left].
  - intros E. injection E as <-. split; [reflexivity | right].
    exists a, sel, doc, items. repeat split; try reflexivity; try assumption.
    + now apply (holidays_in_month_sound m items (a :: sel) H h).
    + now apply (holidays_in_month_sound m items (a :: sel) H h).
Qed.

Lemma month_listing_answers_witness :
  status_code
    (mkresponse 200
       (VDict [("response", VStr "No holidays found for this month")])) = 200
  /\ (body (mkresponse 200
              (VDict [("response",
                       VStr "No holidays found for this month")]))
      = VDict [("response", VStr "No holidays found for this month")]
      \/ exists a sel doc items,
           body (mkresponse 200
                   (VDict [("response",
                            VStr "No holidays found for this month")]))
           = VDict [("holidays", VList (a :: sel))]
           /\ sample_fs 2023 = Some (Json doc)
           /\ iter doc = Ok items
           /\ forall h, In h (a :: sel) ->
                In h items
                /\ exists dt, record_start h = Ok dt
                              /\ Datetime.month dt = 7).
Proof.
  apply (month_listing_answers sample_fs 2023 7).
  reflexivity.
Defined.

Lemma strptime_raise (v : value) (e : exn) :
  Strptime.strptime v = Raise e -> e = ValueError \/ e = TypeError.
Proof.
  unfold Strptime.strptime.
  destruct v as [| | | s | | |];
    try (intros E; injection E as <-; now right).
  destruct (Strptime.format_regex_match _) as [[[[Y mo] dd] rest] |].
  - destruct rest.
    + destruct (valid_date_dec (Strptime.int Y) (Strptime.int mo)
                  (Strptime.int dd)) as [V | N].
      * now rewrite (new_valid _ _ _ V).
      * rewrite (new_invalid _ _ _ N). intros E; injection E as <-.
        now left.
    + intros E; injection E as <-. now left.
  - intros E; injection E as <-. now left.
Qed.

Lemma record_range_raise (h : value) (e : exn) :
  record_range h = Raise e -> data_error e.
Proof.
  unfold record_range, data_error.
  destruct (getitem h "start") as [s | e1] eqn:E1; cbn [bind].
  - destruct (Strptime.strptime s) as [sd | e2] eqn:E2; cbn [bind].
    + destruct (getitem h "end") as [en | e3] eqn:E3; cbn [bind].
      * destruct (Strptime.strptime en) as [ed | e4] eqn:E4; cbn [bind];
          [discriminate | ].
        intros E; injection E as <-.
        destruct (strptime_raise _ _ E4); tauto.
      * intros E; injection E as <-.
        destruct (getitem_raise _ _ _ E3); tauto.
    + intros E; injection E as <-. destruct (strptime_raise _ _ E2); tauto.
  - intros E; injection E as <-. destruct (getitem_raise _ _ _ E1); tauto.
Qed.

Lemma holiday_outcome_raise (dt : Datetime.date) (h : value) (e : exn) :
  holiday_outcome dt h = Raise e -> data_error e.
Proof.
  unfold holiday_outcome, data_error.
  destruct (getitem h "uid") as [? | e1] eqn:E1; cbn [bind];
    [| intros E; injection E as <-; destruct (getitem_raise _ _ _ E1); tauto].
  destruct (getitem h "summary") as [? | e2] eqn:E2; cbn [bind];
    [| intros E; injection E as <-; destruct (getitem_raise _ _ _ E2); tauto].
  destruct (getitem h "categories") as [? | e3] eqn:E3; cbn [bind];
    [| intros E; injection E as <-; destruct (getitem_raise _ _ _ E3); tauto].
  destruct (getitem h "start") as [? | e4] eqn:E4; cbn [bind];
    [| intros E; injection E as <-; destruct (getitem_raise _ _ _ E4); tauto].
  destruct (getitem h "end") as [? | e5] eqn:E5; cbn [bind];
    [| intros E; injection E as <-; destruct (getitem_raise _ _ _ E5); tauto].
  discriminate.
Qed.

Lemma scan_holidays_raise_kind (dt : Datetime.date) (l : list value)
    (e : exn) :
  scan_holidays dt l = Raise e -> data_error e.
Proof.
  induction l as [| h rest IH]; [discriminate | ].
  rewrite scan_holidays_step.
  destruct (record_range h) as [rg | e1] eqn:R; cbn [bind].
  - destruct (in_rangeb dt rg); [apply holiday_outcome_raise | exact IH].
  - intros E; injection E as <-. exact (record_range_raise _ _ R).
Qed.

Lemma holidays_in_month_raise_kind (m : Z) (l : list value) (e : exn) :
  holidays_in_month m l = Raise e -> data_error e.
Proof.
  induction l as [| h rest IH]; [discriminate | ].
  rewrite holidays_in_month_step. unfold record_start.
  destruct (getitem h "start") as [s | e1] eqn:E1; cbn [bind].
  - destruct (Strptime.strptime s) as [sd | e2] eqn:E2; cbn [bind].
    + destruct (holidays_in_month m rest) as [tl | e3]; cbn [bind];
        [discriminate | ].
      intros E; injection E as <-. now apply IH.
    + intros E; injection E as <-. unfold data_error.
      destruct (strptime_raise _ _ E2); tauto.
  - intros E; injection E as <-. unfold data_error.
    destruct (getitem_raise _ _ _ E1); tauto.
Qed.

Lemma iter_raise (v : value) (e : exn) : iter v = Raise e -> e = TypeError.
Proof. destruct v; cbn [iter]; congruence. Qed.

Lemma year_holidays_raise_kind (l : list value) (e : exn) :
  year_holidays l = Raise e -> e = KeyError \/ e = TypeError.
Proof.
  intros E. destruct (year_holidays_keys l) as [Ht Hf].
  destruct (forallb has_keys l).
  - destruct (Ht eq_refl) as (hs & E' & _). congruence.
  - destruct (Hf eq_refl) as (e' & E' & K). congruence.
Qed.

Lemma holidays_in_year_file (fs : filesystem) (y : Z) (f : file) :
  fs y = Some f ->
  (exists hs,
     holidays_in_year fs y
       = Ok (mkresponse 200
               (VDict [("year", VInt y); ("holidays", VList hs)])))
  \/ (exists e, holidays_in_year fs y = Raise e /\ data_error e).
Proof.
  intros F. unfold holidays_in_year, isfile, json_load, data_error.
  rewrite F. cbn [negb].
  destruct f as [| doc]; cbn [bind].
  - right. exists JSONDecodeError. tauto.
  - destruct (iter doc) as [items | e] eqn:I; cbn [bind].
    + destruct (year_holidays items) as [hs | e] eqn:Y; cbn [bind].
      * left. now exists hs.
      * right. exists e.
        destruct (year_holidays_raise_kind _ _ Y) as [-> | ->]; tauto.
    + right. exists e. rewrite (iter_raise _ _ I). tauto.
Qed.

Lemma holidays_list_file (fs : filesystem) (y m : Z) (f : file) (e : exn) :
  fs y = Some f -> holidays_list fs y m = Raise e -> data_error e.
Proof.
  intros F. unfold holidays_list, isfile, json_load. rewrite F.
  cbn [negb]. destruct f as [| doc]; cbn [bind].
  - intros E; injection E as <-. unfold data_error. tauto.
  - destruct (iter doc) as [items | e1] eqn:I; cbn [bind].
    + destruct (holidays_in_month m items) as [sel | e2] eqn:H; cbn [bind].
      * destruct (truthy (VList sel)); discriminate.
      * intros E; injection E as <-.
        exact (holidays_in_month_raise_kind _ _ _ H).
    + intros E; injection E as <-. rewrite (iter_raise _ _ I).
      unfold data_error. tauto.
Qed.

Lemma get_holiday_info_raise_kind (fs : filesystem) (y m d : Z) (e : exn) :
  get_holiday_info fs y m d = Raise e -> fs y <> None /\ data_error e.
Proof.
  unfold get_holiday_info, isfile, json_load.
  destruct (valid_date_dec y m d) as [V | N].
  - rewrite (new_valid _ _ _ V).
    destruct (fs y) as [[| doc] |]; cbn [negb bind]; try discriminate.
    + intros E; injection E as <-. split; [discriminate | ].
      unfold data_error. tauto.
    + destruct (iter doc) as [items | e1] eqn:I; cbn [bind].
      * intros E. split; [discriminate | ].
        exact (scan_holidays_raise_kind _ _ _ E).
      * intros E; injection E as <-. split; [discriminate | ].
        rewrite (iter_raise _ _ I). unfold data_error. tauto.
  - rewrite (new_invalid _ _ _ N). discriminate.
Qed.

(** X22: the answers for a missing year mean that the file is missing
    and nothing else: the year listing answers "Data not available for
    this year." exactly when the year has no file, the month listing
    raises its 404 error exactly then, and for a calendar date
    [get_holiday_info] answers status 404 exactly then. *)
Theorem missing_year_answers_iff_no_file (fs : filesystem) (y : Z) :
  (holidays_in_year fs y
     = Ok (mkresponse 200
             (VDict [("year", VInt y);
                     ("response", VStr "Data not available for this year.")]))
   <-> fs y = None)
  /\ (forall m,
        holidays_list fs y m
          = Raise (HTTPException 404 "Holiday data not available for the year")
        <-> fs y = None)
  /\ (forall m d,
        valid_date y m d ->
        ((exists dp res, get_holiday_info fs y m d = Ok (dp, 404, res))
         <-> fs y = None)).
Proof.
  split; [| split].
  - split.
    + intros E. destruct (fs y) as [f |] eqn:F; [exfalso | reflexivity].
      destruct (holidays_in_year_file fs y f F) as [(hs & H) | (e & H & _)];
        rewrite H in E; discriminate.
    + intros F. unfold holidays_in_year. apply isfile_false in F.
      now rewrite F.
  - intros m. split.
    + intros E. destruct (fs y) as [f |] eqn:F; [exfalso | reflexivity].
      pose proof (holidays_list_file fs y m f _ F E) as K.
      unfold data_error in K. destruct K as [K | [K | [K | K]]]; discriminate.
    + intros F. unfold holidays_list. apply isfile_false in F.
      now rewrite F.
  - intros m d V. split.
    + intros (dp & res & E).
      destruct (get_holiday_info_shape _ _ _ _ _ _ _ E)
        as [(_ & _ & St & _) | [(_ & F & _) | (_ & _ & _ & St & _)]];
        try discriminate. exact F.
    + intros F. eexists. eexists.
      now apply (invalid_date_shape fs y m d).
Qed.

(** X23: a year file that is there never leads to an HTTP error of the
    handlers' own: when an endpoint fails on it, the error is one that
    the stored data causes, a decoding error, [TypeError], [KeyError] or
    [ValueError]; and the coverage endpoint never fails at all. *)
Theorem failures_come_from_data (fs : filesystem) (y : Z) (e : exn) :
  fs y <> None ->
  (holidays_in_year fs y = Raise e -> data_error e)
  /\ (forall m, holidays_list fs y m = Raise e -> data_error e)
  /\ (forall m d, get_holiday_info fs y m d = Raise e -> data_error e)
  /\ (forall m d, check_holiday fs y m d = Raise e -> data_error e)
  /\ (forall m d, holiday_info fs y m d = Raise e -> data_error e)
  /\ api_coverage_year fs y <> Raise e.
Proof.
  intros F. destruct (fs y) as [f |] eqn:Ff; [clear F | congruence].
  split; [| split; [| split; [| split; [| split]]]].
  - intros E.
    destruct (holidays_in_year_file fs y f Ff) as [(hs & H) | (e' & H & K)];
      rewrite H in E; [discriminate | ]. now injection E as <-.
  - intros m E. exact (holidays_list_file fs y m f e Ff E).
  - intros m d E. now apply get_holiday_info_raise_kind in E.
  - intros m d E. unfold check_holiday in E.
    destruct (get_holiday_info fs y m d) as [[[dp st] res] | e0] eqn:G;
      cbn [bind] in E.
    + destruct (negb (st =? HTTP_200_OK)) eqn:S; [discriminate | ].
      apply negb_false_iff, Z.eqb_eq in S.
      destruct (get_holiday_info_shape _ _ _ _ _ _ _ G)
        as [(_ & _ & St & _) | [(_ & _ & _ & St & _) | (_ & _ & _ & _ & b & K)]];
        try (rewrite St in S; discriminate).
      rewrite K in E. cbn [bind truthy] in E. destruct b; discriminate.
    + injection E as <-. now apply get_holiday_info_raise_kind in G.
  - intros m d E. unfold holiday_info in E.
    destruct (get_holiday_info fs y m d) as [[[dp st] res] | e0] eqn:G;
      cbn [bind] in E; [discriminate | ].
    injection E as <-. now apply get_holiday_info_raise_kind in G.
  - unfold api_coverage_year. destruct (isfile fs y); discriminate.
Qed.

Lemma failures_come_from_data_witness :
  (holidays_in_year sample_fs 2024 = Raise JSONDecodeError ->
   data_error JSONDecodeError)
  /\ (forall m, holidays_list sample_fs 2024 m = Raise JSONDecodeError ->
                data_error JSONDecodeError)
  /\ (forall m d, get_holiday_info sample_fs 2024 m d = Raise JSONDecodeError ->
                  data_error JSONDecodeError)
  /\ (forall m d, check_holiday sample_fs 2024 m d = Raise JSONDecodeError ->
                  data_error JSONDecodeError)
  /\ (forall m d, holiday_info sample_fs 2024 m d = Raise JSONDecodeError ->
                  data_error JSONDecodeError)
  /\ api_coverage_year sample_fs 2024 <> Raise JSONDecodeError.
Proof.
  apply (failures_come_from_data sample_fs 2024 JSONDecodeError).
  discriminate.
Defined.
